(** * AdoView: the heading classifier of [process_pdf.py]

    A shallow embedding of the class [PDFOutlineExtractor] and the
    properties of its noise filter, line classifier, level assigner, title
    resolver and outline builder.

    Text is a list of characters.  A character is one of the code points
    U+0000..U+00FF (the 8-bit [ascii] type read as Latin-1); the character
    classes below are Python's on that range.  The PDF libraries are
    collaborators: a document is the record of what they return. *)

From Stdlib Require Import Ascii String.
From Stdlib Require Import List Bool Arith Lia NArith ZArith.
From Stdlib Require Import Relations Sorted Floats Uint63.
Import ListNotations.

Local Open Scope char_scope.
Local Open Scope list_scope.
Local Open Scope nat_scope.

(* ================================================================== *)
(** * Characters and strings *)

Definition str := list ascii.

(** A string literal, as a list of characters. *)
Definition lit (s : string) : str := list_ascii_of_string s.

Definition code (c : ascii) : N := N_of_ascii c.

(** [lo <= c <= hi], by code point. *)
Definition between (lo hi c : ascii) : bool :=
  ((code lo <=? code c) && (code c <=? code hi))%N.

(** [str.isspace] for one character, which is also [\s] of [re] and the set
    that [str.strip] removes: TAB..CR, FS..US, SPACE, NEL and NBSP. *)
Definition isspace (c : ascii) : bool :=
  ((9 <=? code c) && (code c <=? 13) || (28 <=? code c) && (code c <=? 32)
   || (code c =? 133) || (code c =? 160))%N.

(** [\d] of [re]: the decimal digits. *)
Definition isdigit (c : ascii) : bool := between "0" "9" c.

(** The range [A-Z]. *)
Definition isupper_az (c : ascii) : bool := between "A" "Z" c.

(** The range [a-z]. *)
Definition islower_az (c : ascii) : bool := between "a" "z" c.

(** [str.islower] for one character: a-z, the two ordinal indicators, the
    micro sign, and the lowercase letters of Latin-1. *)
Definition islower (c : ascii) : bool :=
  (islower_az c || (code c =? 170) || (code c =? 181) || (code c =? 186)
   || (223 <=? code c) && (code c <=? 246)
   || (248 <=? code c) && (code c <=? 255))%N.

(** [\w] of [re]: [str.isalnum] or the underscore. *)
Definition isword (c : ascii) : bool :=
  (isdigit c || isupper_az c || islower_az c || (code c =? 95)
   || (code c =? 170) || (code c =? 178) || (code c =? 179)
   || (code c =? 181) || (code c =? 185) || (code c =? 186)
   || (188 <=? code c) && (code c <=? 190)
   || (192 <=? code c) && (code c <=? 214)
   || (216 <=? code c) && (code c <=? 246)
   || (248 <=? code c) && (code c <=? 255))%N.

Definition newline : ascii := ascii_of_nat 10.
Definition formfeed : ascii := ascii_of_nat 12.

(** Case folding as [re.IGNORECASE] needs it for the letters of the two
    case-insensitive patterns: A-Z go to a-z. *)
Definition lower (c : ascii) : ascii :=
  if isupper_az c then ascii_of_N (code c + 32) else c.

Fixpoint lstrip (s : str) : str :=
  match s with
  | c :: s' => if isspace c then lstrip s' else s
  | [] => []
  end.

Definition rstrip (s : str) : str := rev (lstrip (rev s)).

(** [s.strip()]. *)
Definition strip (s : str) : str := rstrip (lstrip s).

(** Nothing to trim on the left. *)
Definition starts_clean (s : str) : Prop :=
  match s with
  | [] => True
  | c :: _ => isspace c = false
  end.

(** [s.split(sep)] for a one-character separator. *)
Fixpoint split (sep : ascii) (s : str) : list str :=
  match s with
  | [] => [[]]
  | c :: s' =>
      if Ascii.eqb c sep then [] :: split sep s'
      else match split sep s' with
           | l :: ls => (c :: l) :: ls
           | [] => [[c]]
           end
  end.

Fixpoint startswith (p s : str) : bool :=
  match p, s with
  | [], _ => true
  | a :: p', b :: s' => Ascii.eqb a b && startswith p' s'
  | _ :: _, [] => false
  end.

(** [s.endswith(suffix)]. *)
Definition endswith (suffix s : str) : bool := startswith (rev suffix) (rev s).

(** [needle in s]. *)
Fixpoint contains (needle s : str) : bool :=
  startswith needle s ||
  match s with
  | [] => false
  | _ :: s' => contains needle s'
  end.

Definition str_eqb (a b : str) : bool :=
  if list_eq_dec ascii_dec a b then true else false.

(** A Python [int] as a [float]; exact below 2^53. *)
Definition float_of_nat (n : nat) : float :=
  PrimFloat.of_uint63 (Uint63.of_Z (Z.of_nat n)).

(* ================================================================== *)
(** * Regular expressions

    The fragment of [re] the program uses.  Only the truth value of
    [re.match] is ever read, so greedy and lazy repetition need not be
    told apart. *)

Inductive regex : Type :=
| Eps
| Cls (p : ascii -> bool)
| Cat (a b : regex)
| Alt (a b : regex)
| Star (a : regex)
| Bol
| Eol
| Ahead (a : regex).

Declare Scope re_scope.
Delimit Scope re_scope with re.
Bind Scope re_scope with regex.
Notation "a ;; b" := (Cat a b) (at level 61, right associativity) : re_scope.

Definition Plus (a : regex) : regex := Cat a (Star a).
Definition Opt (a : regex) : regex := Alt a Eps.

Fixpoint pow (a : regex) (n : nat) : regex :=
  match n with
  | 0 => Eps
  | S n' => Cat a (pow a n')
  end.

(** [a{lo,hi}] and [a{lo,}]. *)
Definition Rep (a : regex) (lo hi : nat) : regex :=
  Cat (pow a lo) (pow (Opt a) (hi - lo)).
Definition AtLeast (a : regex) (lo : nat) : regex := Cat (pow a lo) (Star a).

Definition Chr (c : ascii) : regex := Cls (Ascii.eqb c).

(** A literal under [re.IGNORECASE]. *)
Definition ChrI (c : ascii) : regex := Cls (fun x => Ascii.eqb (lower x) (lower c)).
Fixpoint LitI (s : str) : regex :=
  match s with
  | [] => Eps
  | c :: s' => Cat (ChrI c) (LitI s')
  end.

(** [.] matches everything but a newline. *)
Definition Any : regex := Cls (fun c => negb (Ascii.eqb c newline)).

(** [$] holds at the end of the text and before a final newline. *)
Definition at_eol (s : str) : bool :=
  match s with
  | [] => true
  | [c] => Ascii.eqb c newline
  | _ => false
  end.

(** [$] can only hold at the very end: there is no final newline. *)
Definition ends_clean (t : str) : Prop :=
  forall p e, t = p ++ e -> at_eol e = true -> e = [].

(** The loop of a repetition: [step] runs the body once.  It stops when
    [k] accepts what is left, gives up on an iteration that consumes
    nothing, as [re] does, and runs at most [n] times. *)
Fixpoint star_loop (step : (str -> bool) -> str -> bool) (k : str -> bool)
    (n : nat) (s : str) {struct n} : bool :=
  if k s then true
  else match n with
       | 0 => false
       | S n' =>
           step (fun s' => if length s' <? length s
                           then star_loop step k n' s' else false) s
       end.

Section Matcher.

(** The whole text: [^] holds where nothing of it is consumed yet. *)
Variable w : str.

(** A backtracking matcher in continuation-passing style: [k] is tried on
    what is left of the text. *)
Fixpoint m (r : regex) (k : str -> bool) (s : str) : bool :=
  match r with
  | Eps => k s
  | Cls p =>
      match s with
      | c :: s' => if p c then k s' else false
      | [] => false
      end
  | Cat a b => m a (m b k) s
  | Alt a b => if m a k s then true else m b k s
  | Star a => star_loop (m a) k (length s) s
  | Bol => if length s =? length w then k s else false
  | Eol => if at_eol s then k s else false
  | Ahead a => if m a (fun _ => true) s then k s else false
  end.

(** What a regex may consume: [den r s s'] when [r], started on [s], can
    stop with [s'] left. *)
Fixpoint den (r : regex) : str -> str -> Prop :=
  match r with
  | Eps => fun s s' => s' = s
  | Cls p => fun s s' => exists c, s = c :: s' /\ p c = true
  | Cat a b => fun s s' => exists t, den a s t /\ den b t s'
  | Alt a b => fun s s' => den a s s' \/ den b s s'
  | Star a => clos_refl_trans_1n str (den a)
  | Bol => fun s s' => s' = s /\ length s = length w
  | Eol => fun s s' => s' = s /\ at_eol s = true
  | Ahead a => fun s s' => s' = s /\ exists t, den a s t
  end.

End Matcher.

(** [re.match(r, w)] as a truth value. *)
Definition re_match (r : regex) (w : str) : bool := m w r (fun _ => true) w.

(* ================================================================== *)
(** * The extractor *)

Local Open Scope re_scope.

Definition digit : regex := Cls isdigit.
Definition space : regex := Cls isspace.
Definition dot : regex := Chr ".".

(** [[\.\s]]. *)
Definition dot_or_space (c : ascii) : bool := Ascii.eqb c "." || isspace c.

(** [[A-Z0-9. ]]. *)
Definition up_class (c : ascii) : bool :=
  isupper_az c || isdigit c || Ascii.eqb c "." || Ascii.eqb c " ".

(** [[a-zA-Z0-9 ,\-\:]]. *)
Definition title_class (c : ascii) : bool :=
  islower_az c || isupper_az c || isdigit c || Ascii.eqb c " "
  || Ascii.eqb c "," || Ascii.eqb c "-" || Ascii.eqb c ":".

(** [[-/]]. *)
Definition date_sep (c : ascii) : bool := Ascii.eqb c "-" || Ascii.eqb c "/".

(** [[^\w\s]]. *)
Definition punct_class (c : ascii) : bool := negb (isword c || isspace c).

(** [^\d+(\.\d+)*[\.\s]+.+] *)
Definition num_pat : regex :=
  Bol ;; Plus digit ;; Star (dot ;; Plus digit) ;; Plus (Cls dot_or_space) ;; Plus Any.

(** [^(?=.*[A-Z])[A-Z0-9. ]+$] *)
Definition up_pat : regex :=
  Bol ;; Ahead (Star Any ;; Cls isupper_az) ;; Plus (Cls up_class) ;; Eol.

(** [^[A-Z][a-zA-Z0-9 ,\-\:]{4,}$] *)
Definition title_pat : regex :=
  Bol ;; Cls isupper_az ;; AtLeast (Cls title_class) 4 ;; Eol.

(** [^\d{1,2}[-/]\d{1,2}[-/]\d{2,4}$] *)
Definition noise_date_dmy : regex :=
  Bol ;; Rep digit 1 2 ;; Cls date_sep ;; Rep digit 1 2 ;; Cls date_sep ;; Rep digit 2 4 ;; Eol.

(** [^\d{4}[-/]\d{1,2}[-/]\d{1,2}$] *)
Definition noise_date_ymd : regex :=
  Bol ;; pow digit 4 ;; Cls date_sep ;; Rep digit 1 2 ;; Cls date_sep ;; Rep digit 1 2 ;; Eol.

(** [^page\s+\d+$], ignoring case. *)
Definition noise_page : regex :=
  Bol ;; LitI (lit "page") ;; Plus space ;; Plus digit ;; Eol.

(** [^copyright.*$], ignoring case. *)
Definition noise_copyright : regex :=
  Bol ;; LitI (lit "copyright") ;; Star Any ;; Eol.

(** [^\d+$] *)
Definition noise_digits : regex := Bol ;; Plus digit ;; Eol.

(** [^[^\w\s]+$] *)
Definition noise_punct : regex := Bol ;; Plus (Cls punct_class) ;; Eol.

Definition noise_patterns : list regex :=
  [ noise_date_dmy; noise_date_ymd; noise_page; noise_copyright;
    noise_digits; noise_punct ].

(** The one mutable attribute of an extractor; the compiled patterns are the
    constants above. *)
Record PDFOutlineExtractor : Type := { _detected_title : option str }.

(** [PDFOutlineExtractor()]. *)
Definition init : PDFOutlineExtractor := {| _detected_title := None |}.

Record HeadingRecord : Type := { level : str; text : str; page : nat }.

Record Outline : Type := { title : str; outline : list HeadingRecord }.

Inductive error : Type := ValueError (msg : str).

(** What the PDF libraries give for one path.  [None] stands for a call that
    raises (the extractor catches it) and, for the title, also for metadata
    or a title that is missing. *)
Record pdf : Type := {
  reader_pages : option (list str);   (* page.extract_text() of PdfReader(file).pages *)
  reader_title : option str;          (* PdfReader(file).metadata.title *)
  miner_text : option str             (* pdfminer's extract_text(pdf_path) *)
}.

(** The loop shared by the two text extractors: pages are numbered from
    [page_num] on and the blank ones are left out. *)
Fixpoint number_pages (page_num : nat) (pages : list str) : list (str * nat) :=
  match pages with
  | [] => []
  | t :: rest =>
      if match strip t with [] => false | _ => true end
      then (t, page_num) :: number_pages (S page_num) rest
      else number_pages (S page_num) rest
  end.

Definition extract_text_pypdf2 (d : pdf) : list (str * nat) :=
  match reader_pages d with
  | Some pages => number_pages 1 pages
  | None => []
  end.

Definition extract_text_pdfminer (d : pdf) : list (str * nat) :=
  match miner_text d with
  | Some full_text => number_pages 1 (split formfeed full_text)
  | None => []
  end.

Definition extract_title_from_metadata (d : pdf) : option str :=
  match reader_title d with
  | Some ((_ :: _) as t) =>
      let title := strip t in
      if match title with [] => false | _ => true end && (2 <? length title)
      then Some title else None
  | _ => None
  end.

Definition is_noise (line : str) : bool :=
  let line := strip line in
  if length line <? 3 then true
  else existsb (fun pattern => re_match pattern line) noise_patterns.

(** The inner loop of [extract_title_from_content]: the first line that
    passes, if there is one. *)
Fixpoint first_title_line (lines : list str) : option str :=
  match lines with
  | [] => None
  | line :: rest =>
      let line := strip line in
      if match line with [] => false | _ => true end
         && (3 <? length line) && negb (is_noise line)
      then Some line
      else first_title_line rest
  end.

Fixpoint extract_title_from_content (pages_text : list (str * nat)) : str :=
  match pages_text with
  | [] => lit "Untitled Document"
  | (text, _) :: rest =>
      match first_title_line (split newline text) with
      | Some line => line
      | None => extract_title_from_content rest
      end
  end.

(** [count > n * 0.7] for two [int]s: the product is a binary64 number, and
    the constant is the binary64 value of [0.7]. *)
Definition exceeds_product (count n : nat) : bool :=
  PrimFloat.ltb (PrimFloat.mul (float_of_nat n) 0x1.6666666666666p-1%float)
                (float_of_nat count).

(** [sum(1 for c in line if c.islower()) > len(line) * 0.7] *)
Definition mostly_lower (line : str) : bool :=
  exceeds_product (length (filter islower line)) (length line).

Definition is_heading (self : PDFOutlineExtractor) (line : str) : bool :=
  let line := strip line in
  if is_noise line then false
  else if match _detected_title self with
          | Some ((_ :: _) as t) => str_eqb line t
          | _ => false
          end then false
  else if 100 <? length line then false
  else if contains (lit ". This is the content for section:") line then false
  else if (50 <? length line) && mostly_lower line then false
  else if existsb (fun suffix => endswith suffix line)
                  [lit "."; lit ","; lit ";"; lit "!"; lit "?"]
          && negb (endswith (lit "...") line) then false
  else if re_match num_pat line then true
  else if (length line <=? 100) && re_match up_pat line then true
  else if re_match title_pat line then true
  else false.

(** [^\d+\.\s+], the pattern written out in [determine_heading_level]. *)
Definition h1_num_pat : regex := Bol ;; Plus digit ;; dot ;; Plus space.

(** [^\d+\.\d+\s+], the second pattern written out there. *)
Definition h2_num_pat : regex := Bol ;; Plus digit ;; dot ;; Plus digit ;; Plus space.

Definition determine_heading_level (line : str) : str :=
  let line := strip line in
  if re_match h1_num_pat line
     || (15 <? length line) && re_match up_pat line
  then lit "H1"
  else if re_match h2_num_pat line
          || (length line <=? 15) && re_match up_pat line
          || re_match title_pat line
  then lit "H2"
  else lit "H3".

(** The lines of one page, appended to [headings]. *)
Definition page_headings (self : PDFOutlineExtractor) (page_num : nat)
    (headings : list HeadingRecord) (lines : list str) : list HeadingRecord :=
  fold_left
    (fun headings line =>
       let line := strip line in
       if is_heading self line
       then headings ++ [ {| level := determine_heading_level line;
                             text := line; page := page_num |} ]
       else headings)
    lines headings.

Definition extract_headings (self : PDFOutlineExtractor)
    (pages_text : list (str * nat)) : list HeadingRecord :=
  fold_left
    (fun headings '(text, page_num) =>
       page_headings self page_num headings (split newline text))
    pages_text [].

(** [extract_outline]: the result, or the error raised, and the extractor
    as the call leaves it.  What is printed on the error stream is not
    modelled. *)
Definition extract_outline (d : pdf) (self : PDFOutlineExtractor)
  : (error + Outline) * PDFOutlineExtractor :=
  let pages_text := extract_text_pypdf2 d in
  let pages_text :=
    match pages_text with
    | [] => extract_text_pdfminer d
    | _ => pages_text
    end in
  match pages_text with
  | [] => (inl (ValueError (lit "Could not extract text from PDF")), self)
  | _ =>
      let title :=
        match extract_title_from_metadata d with
        | Some ((_ :: _) as t) => t
        | _ => extract_title_from_content pages_text
        end in
      let self := {| _detected_title := Some title |} in
      let headings := extract_headings self pages_text in
      (inr {| title := title; outline := headings |}, self)
  end.

(** ** The batch driver *)

(** One of the files [input_dir.glob("*.pdf")] gives: the stem of its name
    and what the PDF libraries read in it. *)
Record pdf_file : Type := { stem : str; document : pdf }.

(** One turn of the loop of [main]: the shared extractor, the files written
    so far and [success_count].  An error of [extract_outline] is caught and
    the file is skipped.  The file system is taken to accept every write;
    the outline stands for its JSON text. *)
Definition process_pdf
    (state : PDFOutlineExtractor * list (str * Outline) * nat)
    (pdf_path : pdf_file) : PDFOutlineExtractor * list (str * Outline) * nat :=
  let '(extractor, written, success_count) := state in
  match extract_outline (document pdf_path) extractor with
  | (inr outline, extractor) =>
      (extractor, written ++ [(stem pdf_path ++ lit ".json", outline)],
       S success_count)
  | (inl _, extractor) => (extractor, written, success_count)
  end.

(** [main] in batch mode: the exit status and the files written.
    [input_dir] is [None] when the directory does not exist. *)
Definition main (input_dir : option (list pdf_file)) : nat * list (str * Outline) :=
  match input_dir with
  | None => (1, [])
  | Some [] => (1, [])
  | Some pdf_files =>
      let '(_, written, success_count) :=
        fold_left process_pdf pdf_files (init, [], 0) in
      (if success_count =? 0 then 1 else 0, written)
  end.

(* ================================================================== *)
(** * The specification's side

    What the outline specification says in its own words, to be compared
    with the functions above. *)

(** [^\d+\.\d+\s]: a two-level numbered form such as "2.1 Methodology". *)
Definition two_level_form : regex :=
  Bol ;; Plus digit ;; dot ;; Plus digit ;; space.

(** [^\d+\.\d+\.\d+]: how a numbered form of three or more levels begins. *)
Definition three_level_form : regex :=
  Bol ;; Plus digit ;; dot ;; Plus digit ;; dot ;; Plus digit.

Definition all_of (p : ascii -> bool) (l : str) : Prop := forallb p l = true.

(** [D{1,2}[-/]D{1,2}[-/]D{2,4}] *)
Definition date_dmy (t : str) : Prop :=
  exists a s1 b s2 c,
    t = a ++ s1 :: b ++ s2 :: c /\
    all_of isdigit a /\ 1 <= length a <= 2 /\ date_sep s1 = true /\
    all_of isdigit b /\ 1 <= length b <= 2 /\ date_sep s2 = true /\
    all_of isdigit c /\ 2 <= length c <= 4.

(** [YYYY[-/]M{1,2}[-/]D{1,2}] *)
Definition date_ymd (t : str) : Prop :=
  exists a s1 b s2 c,
    t = a ++ s1 :: b ++ s2 :: c /\
    all_of isdigit a /\ length a = 4 /\ date_sep s1 = true /\
    all_of isdigit b /\ 1 <= length b <= 2 /\ date_sep s2 = true /\
    all_of isdigit c /\ 1 <= length c <= 2.

(** The word "page", white space and digits, in any case, and nothing else. *)
Definition page_line (t : str) : Prop :=
  exists p ws ds,
    t = p ++ ws ++ ds /\ map lower p = lit "page" /\
    all_of isspace ws /\ ws <> [] /\ all_of isdigit ds /\ ds <> [].

(** Starts with "copyright", in any case. *)
Definition copyright_line (t : str) : Prop :=
  exists p rest, t = p ++ rest /\ map lower p = lit "copyright".

(** Neither a word character nor white space anywhere. *)
Definition punctuation_only (t : str) : Prop :=
  forall c, In c t -> isword c = false /\ isspace c = false.

(** The six rules of the noise filter. *)
Definition is_noise_spec (line : str) : Prop :=
  let t := strip line in
  length t < 3 \/ date_dmy t \/ date_ymd t \/ page_line t \/
  copyright_line t \/ all_of isdigit t \/ punctuation_only t.

(** [s] ends in [suffix]. *)
Definition ends_in (suffix s : str) : Prop := exists p, s = p ++ suffix.

(** The terminal sentence punctuation. *)
Definition sentence_end (c : ascii) : Prop :=
  c = "." \/ c = "," \/ c = ";" \/ c = "!" \/ c = "?".

(** More than 70% of the characters are lowercase letters. *)
Definition over_70_percent_lower (line : str) : bool :=
  7 * length line <? 10 * length (filter islower line).

(** Where the binary64 comparison and the exact one say the same. *)
Definition same_verdict (count n : nat) : bool :=
  Bool.eqb (exceeds_product count n) (7 * n <? 10 * count).

(** The line classifier as the specification words it: every guard, then
    one of the three surface patterns. *)
Definition is_heading_spec (resolved_title : option str) (line : str) : bool :=
  negb (is_noise line)
  && match resolved_title with
     | Some t => negb (str_eqb line t)
     | None => true
     end
  && (length line <=? 100)
  && negb (contains (lit ". This is the content for section:") line)
  && negb ((50 <? length line) && over_70_percent_lower line)
  && (negb (existsb (fun suffix => endswith suffix line)
                    [lit "."; lit ","; lit ";"; lit "!"; lit "?"])
      || endswith (lit "...") line)
  && (re_match num_pat line || re_match up_pat line || re_match title_pat line).

(** The pages an outline is built from: the primary extraction, or the
    fallback when the primary gives nothing. *)
Definition usable_pages (d : pdf) : list (str * nat) :=
  match extract_text_pypdf2 d with
  | [] => extract_text_pdfminer d
  | pages_text => pages_text
  end.

(** The trimmed lines of all pages, in reading order. *)
Definition all_lines (pages_text : list (str * nat)) : list str :=
  flat_map (fun p => map strip (split newline (fst p))) pages_text.

(** Non-empty, longer than 3 characters, not noise. *)
Definition title_candidate (line : str) : bool :=
  match line with [] => false | _ => true end
  && (3 <? length line) && negb (is_noise line).

(** The priority of title resolution. *)
Definition resolve_title_spec (metadata_title : option str)
    (pages_text : list (str * nat)) : str :=
  let from_content :=
    match find title_candidate (all_lines pages_text) with
    | Some line => line
    | None => lit "Untitled Document"
    end in
  match metadata_title with
  | Some t =>
      if match strip t with [] => false | _ => true end && (2 <? length (strip t))
      then strip t else from_content
  | None => from_content
  end.

(** [sep.join(parts)] *)
Fixpoint join (sep : ascii) (parts : list str) : str :=
  match parts with
  | [] => []
  | [p] => p
  | p :: rest => p ++ sep :: join sep rest
  end.

(** The record the heading pass makes of an accepted line. *)
Definition heading_of (page_num : nat) (line : str) : HeadingRecord :=
  {| level := determine_heading_level (strip line);
     text := strip line; page := page_num |}.

(** What one page contributes to the headings. *)
Definition headings_of_page (self : PDFOutlineExtractor) (p : str * nat)
  : list HeadingRecord :=
  flat_map (fun line => if is_heading self (strip line)
                        then [heading_of (snd p) line] else [])
           (split newline (fst p)).

(** What a fresh extractor writes for one file. *)
Definition written_alone (f : pdf_file) : list (str * Outline) :=
  match fst (extract_outline (document f) init) with
  | inr outline => [(stem f ++ lit ".json", outline)]
  | inl _ => []
  end.

(** ** Inputs the theorems are run on *)

Definition long_caps_subsection : str := lit "2.1 METHODOLOGY AND RESULTS".
Definition caps_subsubsection : str := lit "1.1.1 DETAIL".

(** Ninety characters, sixty-three of them lowercase: exactly 70%. *)
Definition seventy_percent_line : str :=
  lit "A" ++ repeat "a" 63 ++ repeat "B" 26.

Definition sample_pdf : pdf :=
  {| reader_pages :=
       Some [ lit "A Study of Outlines
1. Introduction
Page 12
this is prose that goes on.
2.1 Methodology
A Study of Outlines
BACKGROUND";
              lit "   ";
              lit "1.1.1 Detail
Experimental Setup" ];
     reader_title := None;
     miner_text := None |}.

(** A document the primary extractor reads nothing in. *)
Definition scanned_pdf : pdf :=
  {| reader_pages := Some [ lit "  "; lit "" ];
     reader_title := Some (lit "  Scan 7 ");
     miner_text := Some (lit "  ") |}.

(** The outline of [sample_pdf]. *)
Definition sample_outline : Outline :=
  Eval vm_compute in
    match fst (extract_outline sample_pdf init) with
    | inr out => out
    | inl _ => {| title := []; outline := [] |}
    end.

(* ================================================================== *)
(** * Characters *)

Ltac each_char c :=
  destruct c as [[|] [|] [|] [|] [|] [|] [|] [|]]; vm_compute; congruence.

Lemma digit_not_space (c : ascii) : isdigit c = true -> isspace c = false.
Proof. each_char c. Qed.

Lemma digit_not_upper (c : ascii) : isdigit c = true -> isupper_az c = false.
Proof. each_char c. Qed.

Lemma space_not_digit (c : ascii) : isspace c = true -> isdigit c = false.
Proof. each_char c. Qed.

Lemma newline_is_space (c : ascii) : Ascii.eqb c newline = true -> isspace c = true.
Proof. each_char c. Qed.

(* ================================================================== *)
(** * Trimming *)

Lemma lstrip_clean (s : str) : starts_clean (lstrip s).
Proof.
  induction s as [|c s IH]; simpl; [exact I|].
  destruct (isspace c) eqn:E; [exact IH | simpl; exact E].
Qed.

Lemma lstrip_fixed (s : str) : starts_clean s -> lstrip s = s.
Proof.
  destruct s as [|c s]; simpl; [reflexivity|].
  intros ->. reflexivity.
Qed.

Lemma lstrip_split (s : str) :
  exists a, s = a ++ lstrip s /\ forallb isspace a = true.
Proof.
  induction s as [|c s (a & Ha & Hs)]; simpl.
  - exists []. split; reflexivity.
  - destruct (isspace c) eqn:E.
    + exists (c :: a). simpl. rewrite E, Hs. split; [f_equal; exact Ha | reflexivity].
    + exists []. split; reflexivity.
Qed.

Lemma rstrip_split (s : str) :
  exists b, s = rstrip s ++ b /\ forallb isspace b = true.
Proof.
  unfold rstrip. destruct (lstrip_split (rev s)) as (a & Ha & Hs).
  exists (rev a). split.
  - rewrite <- rev_app_distr, <- Ha, rev_involutive. reflexivity.
  - rewrite forallb_forall in *. intros c Hc. apply Hs, in_rev, Hc.
Qed.

Lemma rstrip_clean (s : str) : starts_clean s -> starts_clean (rstrip s).
Proof.
  intros Hs. destruct (rstrip_split s) as (b & Hb & _).
  destruct (rstrip s) as [|c r]; [exact I|].
  rewrite Hb in Hs. exact Hs.
Qed.

Lemma rstrip_idem (s : str) : rstrip (rstrip s) = rstrip s.
Proof.
  unfold rstrip. rewrite rev_involutive.
  rewrite (lstrip_fixed _ (lstrip_clean _)). reflexivity.
Qed.

(** Trimming twice is trimming once. *)
Lemma strip_idem (s : str) : strip (strip s) = strip s.
Proof.
  unfold strip.
  rewrite (lstrip_fixed _ (rstrip_clean _ (lstrip_clean s))).
  apply rstrip_idem.
Qed.

(** A trimmed string does not end in white space. *)
Lemma strip_last (s p : str) (c : ascii) :
  strip s = p ++ [c] -> isspace c = false.
Proof.
  unfold strip, rstrip. intros H.
  pose proof (lstrip_clean (rev (lstrip s))) as Hc.
  apply (f_equal (@rev ascii)) in H.
  rewrite rev_involutive, rev_app_distr in H. simpl in H.
  rewrite H in Hc. exact Hc.
Qed.

(** A trimmed string is a piece of the original. *)
Lemma strip_infix (s : str) : exists a b, s = a ++ strip s ++ b.
Proof.
  destruct (lstrip_split s) as (a & Ha & _).
  destruct (rstrip_split (lstrip s)) as (b & Hb & _).
  exists a, b. unfold strip. rewrite <- Hb. exact Ha.
Qed.

Lemma strip_In (s : str) (c : ascii) : In c (strip s) -> In c s.
Proof.
  destruct (strip_infix s) as (a & b & H). intros Hc.
  rewrite H. apply in_or_app. right. apply in_or_app. left. exact Hc.
Qed.

(** In a trimmed text [$] holds at the very end only. *)
Lemma strip_at_eol (s p e : str) :
  strip s = p ++ e -> at_eol e = true -> e = [].
Proof.
  intros H He. destruct e as [|c [|c' e]]; [reflexivity | | discriminate].
  simpl in He. apply strip_last in H. apply newline_is_space in He. congruence.
Qed.

(* ================================================================== *)
(** * The matcher is right *)

Section MatcherFacts.

Variable w : str.

(** A regex leaves a suffix of what it started on. *)
Lemma den_suffix (r : regex) : forall s s', den w r s s' -> exists l, s = l ++ s'.
Proof.
  induction r as [|p|a IHa b IHb|a IHa b IHb|a IHa| | |a IHa]; simpl; intros s s' H.
  - subst. exists []. reflexivity.
  - destruct H as (c & -> & _). exists [c]. reflexivity.
  - destruct H as (t & Ha & Hb).
    destruct (IHa _ _ Ha) as (l1 & ->). destruct (IHb _ _ Hb) as (l2 & ->).
    exists (l1 ++ l2). rewrite app_assoc. reflexivity.
  - destruct H as [H|H]; [apply IHa | apply IHb]; exact H.
  - induction H as [x|x y z Hxy _ (l2 & ->)].
    + exists []. reflexivity.
    + destruct (IHa _ _ Hxy) as (l1 & ->).
      exists (l1 ++ l2). rewrite app_assoc. reflexivity.
  - destruct H as (-> & _). exists []. reflexivity.
  - destruct H as (-> & _). exists []. reflexivity.
  - destruct H as (-> & _). exists []. reflexivity.
Qed.

(** One run of a regex consumes something or leaves the text as it was. *)
Lemma den_progress (r : regex) (s s' : str) :
  den w r s s' -> s' = s \/ length s' < length s.
Proof.
  intros H. destruct (den_suffix _ _ _ H) as ([|c l] & ->).
  - left. reflexivity.
  - right. simpl. rewrite length_app. lia.
Qed.

Lemma star_loop_sound (a : regex) (k : str -> bool)
    (IHa : forall k s, m w a k s = true -> exists s', den w a s s' /\ k s' = true) :
  forall n s, star_loop (m w a) k n s = true ->
              exists s', den w (Star a) s s' /\ k s' = true.
Proof.
  induction n as [|n IHn]; intros s; simpl; destruct (k s) eqn:Hk;
    try (intros _; exists s; split; [apply Relation_Operators.rt1n_refl | exact Hk]);
    try discriminate.
  intros H. apply IHa in H. destruct H as (t & Hst & Ht).
  destruct (length t <? length s); [|discriminate].
  destruct (IHn _ Ht) as (s' & Hts' & Hs').
  exists s'. split; [eapply Relation_Operators.rt1n_trans; eassumption | exact Hs'].
Qed.

Lemma star_loop_complete (a : regex) (k : str -> bool)
    (IHa : forall k s, (exists s', den w a s s' /\ k s' = true) -> m w a k s = true) :
  forall s s', den w (Star a) s s' -> k s' = true ->
               forall n, length s <= n -> star_loop (m w a) k n s = true.
Proof.
  simpl. induction 1 as [x|x y z Hxy Hyz IH]; intros Hk n Hn.
  - destruct n; simpl; rewrite Hk; reflexivity.
  - destruct (den_progress _ _ _ Hxy) as [->|Hlt]; [apply IH; assumption|].
    destruct n as [|n]; [lia|]. simpl. destruct (k x); [reflexivity|].
    apply IHa. exists y. split; [exact Hxy|].
    apply Nat.ltb_lt in Hlt as Hlt'. rewrite Hlt'.
    apply IH; [exact Hk | lia].
Qed.

(** The matcher accepts exactly when the regex can stop somewhere the
    continuation accepts. *)
Theorem m_correct (r : regex) :
  forall k s, m w r k s = true <-> exists s', den w r s s' /\ k s' = true.
Proof.
  induction r as [|p|a IHa b IHb|a IHa b IHb|a IHa| | |a IHa]; intros k s; simpl.
  - split; [intros H; exists s; auto | intros (s' & -> & H); exact H].
  - destruct s as [|c s].
    + split; [discriminate | intros (s' & (c & Hc & _) & _); discriminate].
    + destruct (p c) eqn:Hp.
      * split; [intros H; exists s; split; [exists c; auto | exact H]|].
        intros (s' & (c' & Hc & _) & H). injection Hc as _ <-. exact H.
      * split; [discriminate|].
        intros (s' & (c' & Hc & Hp') & _). injection Hc as <- _. congruence.
  - rewrite IHa. split.
    + intros (t & Ha & Hb). apply IHb in Hb. destruct Hb as (s' & Hb & Hk).
      exists s'. split; [exists t; auto | exact Hk].
    + intros (s' & (t & Ha & Hb) & Hk). exists t. split; [exact Ha|].
      apply IHb. exists s'. auto.
  - destruct (m w a k s) eqn:Ha.
    + apply IHa in Ha. destruct Ha as (s' & Ha & Hk).
      split; [intros _; exists s'; auto | reflexivity].
    + rewrite IHb. split.
      * intros (s' & Hb & Hk). exists s'. auto.
      * intros (s' & [H|H] & Hk); [|exists s'; auto].
        assert (m w a k s = true) by (apply IHa; exists s'; auto). congruence.
  - split.
    + apply star_loop_sound. intros k0 s0. apply IHa.
    + intros (s' & H & Hk).
      apply (star_loop_complete a k (fun k0 s0 => proj2 (IHa k0 s0)) s s' H Hk). lia.
  - destruct (Nat.eqb_spec (length s) (length w)) as [E|E].
    + split; [intros H; exists s; auto | intros (s' & (-> & _) & H); exact H].
    + split; [discriminate | intros (s' & (_ & E') & _); contradiction].
  - destruct (at_eol s) eqn:E.
    + split; [intros H; exists s; auto | intros (s' & (-> & _) & H); exact H].
    + split; [discriminate | intros (s' & (_ & E') & _); congruence].
  - destruct (m w a (fun _ => true) s) eqn:Ha.
    + apply IHa in Ha. destruct Ha as (t & Ha & _).
      split; [intros H; exists s; split; [split; [reflexivity | exists t; exact Ha] | exact H]|].
      intros (s' & (-> & _) & H). exact H.
    + split; [discriminate|].
      intros (s' & (_ & t & Ht) & _).
      assert (m w a (fun _ => true) s = true) by (apply IHa; exists t; auto).
      congruence.
Qed.

End MatcherFacts.

(** [re.match] succeeds exactly when the regex can run from the start. *)
Lemma re_match_den (r : regex) (w : str) :
  re_match r w = true <-> exists s', den w r w s'.
Proof.
  unfold re_match. rewrite m_correct. split.
  - intros (s' & H & _). exists s'. exact H.
  - intros (s' & H). exists s'. auto.
Qed.

(* ================================================================== *)
(** * Runs of one character class *)

(** Two runs of a class that each stop at a character outside it are the
    same run. *)
Lemma run_unique (p : ascii -> bool) :
  forall l1 l2 x1 x2 r1 r2,
    forallb p l1 = true -> forallb p l2 = true ->
    p x1 = false -> p x2 = false ->
    l1 ++ x1 :: r1 = l2 ++ x2 :: r2 ->
    l1 = l2 /\ x1 = x2 /\ r1 = r2.
Proof.
  induction l1 as [|c l1 IH]; intros [|c2 l2] x1 x2 r1 r2 H1 H2 Hx1 Hx2 E;
    simpl in *.
  - injection E as -> ->. auto.
  - injection E as -> _. apply andb_prop in H2. destruct H2. congruence.
  - injection E as -> _. apply andb_prop in H1. destruct H1. congruence.
  - injection E as -> E. apply andb_prop in H1, H2.
    destruct H1 as [_ H1], H2 as [_ H2].
    destruct (IH _ _ _ _ _ H1 H2 Hx1 Hx2 E) as (-> & -> & ->). auto.
Qed.

Section Runs.

Variable w : str.
Variable p : ascii -> bool.

Lemma den_cat (a b : regex) (s s' : str) :
  den w (a ;; b) s s' <-> exists t, den w a s t /\ den w b t s'.
Proof. reflexivity. Qed.

Lemma den_cls (s s' : str) :
  den w (Cls p) s s' <-> exists c, s = c :: s' /\ p c = true.
Proof. reflexivity. Qed.

Lemma den_bol (s s' : str) :
  den w Bol s s' <-> s' = s /\ length s = length w.
Proof. reflexivity. Qed.

Lemma den_eol (s s' : str) :
  den w Eol s s' <-> s' = s /\ at_eol s = true.
Proof. reflexivity. Qed.

Lemma den_star_cls (s s' : str) :
  den w (Star (Cls p)) s s' <-> exists l, s = l ++ s' /\ forallb p l = true.
Proof.
  split.
  - simpl. induction 1 as [x|x y z (c & -> & Hc) _ (l & -> & Hl)].
    + exists []. auto.
    + exists (c :: l). simpl. rewrite Hc, Hl. auto.
  - intros (l & -> & Hl). induction l as [|c l IH]; simpl in *.
    + apply Relation_Operators.rt1n_refl.
    + apply andb_prop in Hl. destruct Hl as [Hc Hl].
      apply Relation_Operators.rt1n_trans with (l ++ s'); [|apply IH, Hl].
      exists c. auto.
Qed.

Lemma den_plus_cls (s s' : str) :
  den w (Plus (Cls p)) s s' <->
  exists l, s = l ++ s' /\ forallb p l = true /\ l <> [].
Proof.
  unfold Plus. rewrite den_cat. split.
  - intros (t & (c & -> & Hc) & H). apply den_star_cls in H.
    destruct H as (l & -> & Hl). exists (c :: l). simpl. rewrite Hc, Hl.
    repeat split; discriminate.
  - intros ([|c l] & -> & Hl & Hne); [contradiction|]. simpl in Hl.
    apply andb_prop in Hl. destruct Hl as [Hc Hl].
    exists (l ++ s'). split; [exists c; auto|].
    apply den_star_cls. exists l. auto.
Qed.

Lemma den_pow_cls (n : nat) : forall s s',
  den w (pow (Cls p) n) s s' <->
  exists l, s = l ++ s' /\ forallb p l = true /\ length l = n.
Proof.
  induction n as [|n IH]; intros s s'; simpl pow.
  - simpl. split.
    + intros ->. exists []. auto.
    + intros ([|c l] & -> & _ & Hn); [reflexivity | discriminate].
  - rewrite den_cat. split.
    + intros (t & (c & -> & Hc) & H). apply IH in H.
      destruct H as (l & -> & Hl & Hn). exists (c :: l). simpl.
      rewrite Hc, Hl, Hn. auto.
    + intros ([|c l] & -> & Hl & Hn); [discriminate|]. simpl in *.
      apply andb_prop in Hl. destruct Hl as [Hc Hl].
      exists (l ++ s'). split; [exists c; auto|].
      apply IH. exists l. repeat split; [exact Hl | lia].
Qed.

Lemma den_pow_opt_cls (n : nat) : forall s s',
  den w (pow (Opt (Cls p)) n) s s' <->
  exists l, s = l ++ s' /\ forallb p l = true /\ length l <= n.
Proof.
  induction n as [|n IH]; intros s s'; simpl pow.
  - simpl. split.
    + intros ->. exists []. auto.
    + intros ([|c l] & -> & _ & Hn); [reflexivity | simpl in Hn; lia].
  - rewrite den_cat. split.
    + intros (t & [(c & -> & Hc) | ->] & H); apply IH in H;
        destruct H as (l & -> & Hl & Hn).
      * exists (c :: l). simpl. rewrite Hc, Hl. repeat split. lia.
      * exists l. repeat split; [exact Hl | lia].
    + intros ([|c l] & -> & Hl & Hn); simpl in *.
      * exists s'. split; [right; reflexivity|].
        apply IH. exists []. repeat split. simpl. lia.
      * apply andb_prop in Hl. destruct Hl as [Hc Hl].
        exists (l ++ s'). split; [left; exists c; auto|].
        apply IH. exists l. repeat split; [exact Hl | lia].
Qed.

(** [p{lo,hi}] *)
Lemma den_rep_cls (lo hi : nat) (s s' : str) :
  lo <= hi ->
  (den w (Rep (Cls p) lo hi) s s' <->
   exists l, s = l ++ s' /\ forallb p l = true /\ lo <= length l <= hi).
Proof.
  intros Hle. unfold Rep. rewrite den_cat. split.
  - intros (t & H1 & H2). apply den_pow_cls in H1. apply den_pow_opt_cls in H2.
    destruct H1 as (l1 & -> & Hl1 & Hn1), H2 as (l2 & -> & Hl2 & Hn2).
    exists (l1 ++ l2). rewrite <- app_assoc, forallb_app, Hl1, Hl2, length_app.
    repeat split; lia.
  - intros (l & -> & Hl & Hn).
    rewrite <- (firstn_skipn lo l) in Hl |- *.
    rewrite forallb_app in Hl. apply andb_prop in Hl. destruct Hl as [Hl1 Hl2].
    exists (skipn lo l ++ s'). split.
    + apply den_pow_cls. exists (firstn lo l). rewrite <- app_assoc.
      repeat split; [exact Hl1 | apply firstn_length_le; lia].
    + apply den_pow_opt_cls. exists (skipn lo l).
      repeat split; [exact Hl2 | rewrite length_skipn; lia].
Qed.

(** [p{lo,}] *)
Lemma den_atleast_cls (lo : nat) (s s' : str) :
  den w (AtLeast (Cls p) lo) s s' <->
  exists l, s = l ++ s' /\ forallb p l = true /\ lo <= length l.
Proof.
  unfold AtLeast. rewrite den_cat. split.
  - intros (t & H1 & H2). apply den_pow_cls in H1. apply den_star_cls in H2.
    destruct H1 as (l1 & -> & Hl1 & Hn1), H2 as (l2 & -> & Hl2).
    exists (l1 ++ l2). rewrite <- app_assoc, forallb_app, Hl1, Hl2, length_app.
    repeat split; lia.
  - intros (l & -> & Hl & Hn).
    rewrite <- (firstn_skipn lo l) in Hl |- *.
    rewrite forallb_app in Hl. apply andb_prop in Hl. destruct Hl as [Hl1 Hl2].
    exists (skipn lo l ++ s'). split.
    + apply den_pow_cls. exists (firstn lo l). rewrite <- app_assoc.
      repeat split; [exact Hl1 | apply firstn_length_le; lia].
    + apply den_star_cls. exists (skipn lo l). auto.
Qed.

End Runs.

Section Literals.

Variable w : str.

Lemma den_chr (c : ascii) (s s' : str) : den w (Chr c) s s' <-> s = c :: s'.
Proof.
  unfold Chr. rewrite den_cls. split.
  - intros (x & -> & H). apply Ascii.eqb_eq in H. subst. reflexivity.
  - intros ->. exists c. split; [reflexivity | apply Ascii.eqb_refl].
Qed.

(** A literal under [re.IGNORECASE] takes any spelling of it. *)
Lemma den_LitI (t : str) : forall s s',
  den w (LitI t) s s' <-> exists l, s = l ++ s' /\ map lower l = map lower t.
Proof.
  induction t as [|c t IH]; intros s s'; simpl LitI.
  - simpl. split.
    + intros ->. exists []. auto.
    + intros ([|x l] & -> & H); [reflexivity | discriminate].
  - rewrite den_cat. unfold ChrI. split.
    + intros (u & (x & -> & Hx) & H). apply IH in H.
      destruct H as (l & -> & Hl). apply Ascii.eqb_eq in Hx.
      exists (x :: l). simpl. rewrite Hx, Hl. auto.
    + intros ([|x l] & -> & Hl); [discriminate|]. simpl in Hl.
      injection Hl as Hx Hl. exists (l ++ s'). split.
      * exists x. split; [reflexivity | apply Ascii.eqb_eq, Hx].
      * apply IH. exists l. auto.
Qed.

End Literals.

(* ================================================================== *)
(** * Taking a pattern apart and putting it together *)

(** One piece of a concatenation, read as an equation on the text. *)
Ltac den_piece H :=
  first
    [ destruct (proj1 (den_bol _ _ _) H) as (-> & _); clear H
    | let E := fresh "E" in
      destruct (proj1 (den_eol _ _ _) H) as (-> & E); clear H; rename E into H
    | apply den_chr in H; subst
    | apply den_rep_cls in H; [destruct H as (? & -> & ? & ?) | lia]
    | apply den_plus_cls in H; destruct H as (? & -> & ? & ?)
    | apply den_star_cls in H; destruct H as (? & -> & ?)
    | apply den_pow_cls in H; destruct H as (? & -> & ? & ?)
    | apply den_atleast_cls in H; destruct H as (? & -> & ? & ?)
    | apply den_LitI in H; destruct H as (? & -> & ?)
    | apply den_cls in H; destruct H as (? & -> & ?) ].

Ltac den_inv H :=
  repeat (match type of H with
          | den _ (Cat _ _) _ _ =>
              let H1 := fresh "P" in
              apply den_cat in H; destruct H as (? & H1 & H); den_piece H1
          end);
  den_piece H.

(** The converse: each piece takes what stands first in the text. *)
Ltac den_solve_piece :=
  first
    [ apply den_bol; split; reflexivity
    | apply den_eol; split; [reflexivity | assumption || reflexivity]
    | apply den_chr; reflexivity
    | apply den_rep_cls; [lia | eexists; split; [reflexivity | split; [eassumption | lia]]]
    | apply den_plus_cls; eexists; split; [reflexivity | split; eassumption]
    | apply den_star_cls; eexists; split; [reflexivity | eassumption]
    | apply den_pow_cls; eexists; split; [reflexivity | split; [eassumption | lia]]
    | apply den_atleast_cls; eexists; split; [reflexivity | split; [eassumption | lia]]
    | apply den_LitI; eexists; split; [reflexivity | eassumption]
    | apply den_cls; eexists; split; [reflexivity | eassumption] ].

Ltac den_build :=
  repeat (apply den_cat; eexists; split; [den_solve_piece|]); den_solve_piece.

(* ================================================================== *)
(** * The noise patterns, rule by rule *)

Lemma dmy_rule (t : str) (Hclean : ends_clean t) :
  re_match noise_date_dmy t = true <-> date_dmy t.
Proof.
  rewrite re_match_den. unfold noise_date_dmy, digit. split.
  - intros (e & H).
    destruct (den_suffix _ _ _ _ H) as (pre & Hpre).
    den_inv H. apply (Hclean _ _ Hpre) in H. subst.
    do 5 eexists. split; [reflexivity|]. rewrite app_nil_r.
    unfold all_of. repeat split; assumption || lia.
  - intros (a & s1 & b & s2 & c & -> & Ha & Hna & Hs1 & Hb & Hnb & Hs2 & Hc & Hnc).
    exists []. rewrite <- (app_nil_r c). unfold all_of in *. den_build.
Qed.

Lemma ymd_rule (t : str) (Hclean : ends_clean t) :
  re_match noise_date_ymd t = true <-> date_ymd t.
Proof.
  rewrite re_match_den. unfold noise_date_ymd, digit. split.
  - intros (e & H).
    destruct (den_suffix _ _ _ _ H) as (pre & Hpre).
    den_inv H. apply (Hclean _ _ Hpre) in H. subst.
    do 5 eexists. split; [reflexivity|]. rewrite app_nil_r.
    unfold all_of. repeat split; assumption || lia.
  - intros (a & s1 & b & s2 & c & -> & Ha & Hna & Hs1 & Hb & Hnb & Hs2 & Hc & Hnc).
    exists []. rewrite <- (app_nil_r c). unfold all_of in *. den_build.
Qed.

Lemma page_rule (t : str) (Hclean : ends_clean t) :
  re_match noise_page t = true <-> page_line t.
Proof.
  rewrite re_match_den. unfold noise_page, digit, space. split.
  - intros (e & H).
    destruct (den_suffix _ _ _ _ H) as (pre & Hpre).
    den_inv H. apply (Hclean _ _ Hpre) in H. subst.
    do 3 eexists. split; [reflexivity|]. rewrite app_nil_r.
    unfold all_of. repeat split; assumption.
  - intros (p & ws & ds & -> & Hp & Hws & Hne & Hds & Hne').
    exists []. rewrite <- (app_nil_r ds). unfold all_of in *.
    assert (Hp' : map lower p = map lower (lit "page")) by exact Hp.
    den_build.
Qed.

Lemma copyright_rule (t : str) :
  ~ In newline t -> (re_match noise_copyright t = true <-> copyright_line t).
Proof.
  intros Hnl. rewrite re_match_den. unfold noise_copyright, Any. split.
  - intros (e & H). den_inv H. do 2 eexists. split; [reflexivity | assumption].
  - intros (p & rest & -> & Hp).
    exists []. rewrite <- (app_nil_r rest).
    assert (Hp' : map lower p = map lower (lit "copyright")) by exact Hp.
    assert (Hrest : forallb (fun c => negb (Ascii.eqb c newline)) rest = true).
    { apply forallb_forall. intros c Hc.
      destruct (Ascii.eqb_spec c newline) as [->|]; [|reflexivity].
      exfalso. apply Hnl, in_or_app. right. exact Hc. }
    den_build.
Qed.

Lemma digits_rule (t : str) (Hclean : ends_clean t) :
  t <> [] -> (re_match noise_digits t = true <-> all_of isdigit t).
Proof.
  intros Hne. rewrite re_match_den. unfold noise_digits, digit. split.
  - intros (e & H).
    destruct (den_suffix _ _ _ _ H) as (pre & Hpre).
    den_inv H. apply (Hclean _ _ Hpre) in H. subst.
    rewrite app_nil_r. assumption.
  - intros Hd. exists []. revert Hne. rewrite <- (app_nil_r t). intros Hne.
    rewrite app_nil_r in Hne. unfold all_of in *. den_build.
Qed.

Lemma punct_rule (t : str) (Hclean : ends_clean t) :
  t <> [] -> (re_match noise_punct t = true <-> punctuation_only t).
Proof.
  intros Hne.
  assert (Hiff : forallb punct_class t = true <-> punctuation_only t).
  { rewrite forallb_forall. unfold punctuation_only, punct_class.
    split; intros H c Hc; specialize (H c Hc).
    - apply negb_true_iff, orb_false_iff in H. exact H.
    - destruct H as [-> ->]. reflexivity. }
  rewrite <- Hiff. rewrite re_match_den. unfold noise_punct. split.
  - intros (e & H).
    destruct (den_suffix _ _ _ _ H) as (pre & Hpre).
    den_inv H. apply (Hclean _ _ Hpre) in H. subst.
    rewrite app_nil_r. assumption.
  - intros Hd. exists []. revert Hne. rewrite <- (app_nil_r t). intros Hne.
    rewrite app_nil_r in Hne. den_build.
Qed.

Lemma strip_ends_clean (line : str) : ends_clean (strip line).
Proof. intros p e H He. exact (strip_at_eol _ _ _ H He). Qed.

(* ================================================================== *)
(** * The noise filter *)

Lemma is_noise_strip (line : str) : is_noise (strip line) = is_noise line.
Proof. unfold is_noise. rewrite strip_idem. reflexivity. Qed.

Lemma not_noise_length (line : str) :
  is_noise line = false -> 3 <= length (strip line).
Proof.
  unfold is_noise. destruct (length (strip line) <? 3) eqn:E; [discriminate|].
  intros _. apply Nat.ltb_ge in E. exact E.
Qed.

(** C6. The noise filter is a pure function of the line, and on a line (a
    piece of text between two newlines, so without a newline of its own) it
    answers true exactly when, after trimming, one of the six rules holds:
    shorter than 3; a date D{1,2}[-/]D{1,2}[-/]D{2,4}; a date
    YYYY[-/]M{1,2}[-/]D{1,2}; "page", white space and digits in any case and
    nothing else; starting with "copyright" in any case; digits only;
    neither a word character nor white space anywhere. *)
Theorem is_noise_rules (line : str) :
  ~ In newline line -> (is_noise line = true <-> is_noise_spec line).
Proof.
  intros Hnl. unfold is_noise, is_noise_spec.
  pose proof (strip_ends_clean line) as Hc.
  assert (Hnl' : ~ In newline (strip line))
    by (intros H; apply Hnl, strip_In, H).
  set (t := strip line) in *.
  destruct (length t <? 3) eqn:E.
  - apply Nat.ltb_lt in E. split; [intros _; left; exact E | reflexivity].
  - apply Nat.ltb_ge in E.
    assert (Hne : t <> []) by (intros ->; simpl in E; lia).
    unfold noise_patterns. simpl existsb. rewrite !orb_true_iff.
    rewrite (dmy_rule t Hc), (ymd_rule t Hc), (page_rule t Hc),
      (copyright_rule t Hnl'), (digits_rule t Hc Hne), (punct_rule t Hc Hne).
    split.
    + intros [H|[H|[H|[H|[H|[H|H]]]]]]; [tauto..|discriminate].
    + intros [H|H]; [lia | tauto].
Qed.

Lemma is_noise_rules_witness :
  ~ In newline (lit "Page 12") /\
  (is_noise (lit "Page 12") = true <-> is_noise_spec (lit "Page 12")).
Proof.
  assert (H : ~ In newline (lit "Page 12")) by (simpl; intuition discriminate).
  split; [exact H | exact (is_noise_rules (lit "Page 12") H)].
Defined.

(** The rule for "copyright" is where a newline inside the text would
    matter: [.] stops at it and [$] then fails. *)
Lemma is_noise_stops_at_newline :
  is_noise (lit "copyright" ++ newline :: lit "notice") = false /\
  copyright_line (strip (lit "copyright" ++ newline :: lit "notice")).
Proof.
  split; [reflexivity|].
  exists (lit "copyright"), (newline :: lit "notice"). split; reflexivity.
Qed.

(* ================================================================== *)
(** * The line classifier *)

(** C5. A line the noise filter accepts is rejected by the line classifier,
    whatever the resolved title is. *)
Theorem noise_is_never_heading (self : PDFOutlineExtractor) (line : str) :
  is_noise line = true -> is_heading self line = false.
Proof.
  intros H. unfold is_heading. rewrite is_noise_strip, H. reflexivity.
Qed.

Lemma noise_is_never_heading_witness :
  is_noise (lit "Page 12") = true /\ is_heading init (lit "Page 12") = false.
Proof.
  split; [reflexivity | apply noise_is_never_heading; reflexivity].
Defined.

Lemma str_eqb_eq (a b : str) : str_eqb a b = true <-> a = b.
Proof.
  unfold str_eqb. destruct (list_eq_dec ascii_dec a b); split; congruence.
Qed.

Lemma startswith_spec (p : str) : forall s,
  startswith p s = true <-> exists r, s = p ++ r.
Proof.
  induction p as [|a p IH]; intros [|b s]; simpl.
  - split; [exists []; reflexivity | reflexivity].
  - split; [exists (b :: s); reflexivity | reflexivity].
  - split; [discriminate | intros (r & H); discriminate].
  - rewrite andb_true_iff, Ascii.eqb_eq, IH. split.
    + intros (-> & r & ->). exists r. reflexivity.
    + intros (r & H). injection H as -> ->. split; [reflexivity | exists r; reflexivity].
Qed.

Lemma endswith_spec (suffix s : str) :
  endswith suffix s = true <-> ends_in suffix s.
Proof.
  unfold endswith, ends_in. rewrite startswith_spec. split.
  - intros (r & H). exists (rev r).
    rewrite <- (rev_involutive s), H, rev_app_distr, rev_involutive. reflexivity.
  - intros (p & ->). exists (rev p). apply rev_app_distr.
Qed.

(** What every accepted line has passed. *)
Lemma is_heading_guards (self : PDFOutlineExtractor) (line : str) :
  is_heading self line = true ->
  let t := strip line in
  is_noise t = false /\
  (forall title, _detected_title self = Some title -> t <> title) /\
  length t <= 100 /\
  ((existsb (fun suffix => endswith suffix t)
            [lit "."; lit ","; lit ";"; lit "!"; lit "?"]) = true ->
   endswith (lit "...") t = true).
Proof.
  unfold is_heading. set (t := strip line). simpl.
  destruct (is_noise t) eqn:Hn; [discriminate|].
  destruct (match _detected_title self with
            | Some ((_ :: _) as t0) => str_eqb t t0
            | _ => false
            end) eqn:Ht; [discriminate|].
  destruct (100 <? length t) eqn:Hlen; [discriminate|].
  destruct (contains _ t); [discriminate|].
  destruct ((50 <? length t) && mostly_lower t); [discriminate|].
  match goal with
  | |- (if ?b then _ else _) = _ -> _ => destruct b eqn:Hp; [discriminate|]
  end.
  intros _. repeat split.
  - intros title E. rewrite E in Ht. intros <-.
    destruct t as [|c t'] eqn:Et.
    + unfold is_noise in Hn. rewrite <- Et in Hn. unfold t in Hn.
      rewrite strip_idem in Hn. fold t in Hn. rewrite Et in Hn. discriminate.
    + assert (str_eqb (c :: t') (c :: t') = true) by (apply str_eqb_eq; reflexivity).
      congruence.
  - apply Nat.ltb_ge in Hlen. exact Hlen.
  - intros Hex. apply andb_false_iff in Hp. destruct Hp as [Hp|Hp].
    + simpl in Hex, Hp. congruence.
    + apply negb_false_iff in Hp. exact Hp.
Qed.

Lemma level_is_one_of_three (line : str) :
  determine_heading_level line = lit "H1" \/
  determine_heading_level line = lit "H2" \/
  determine_heading_level line = lit "H3".
Proof.
  unfold determine_heading_level.
  destruct (_ || _); [left; reflexivity|].
  destruct (_ || _); [right; left | right; right]; reflexivity.
Qed.

(* ================================================================== *)
(** * The heading pass *)

Lemma page_headings_In (self : PDFOutlineExtractor) (page_num : nat)
    (lines : list str) : forall headings h,
  In h (page_headings self page_num headings lines) ->
  In h headings \/
  exists line, In line lines /\ is_heading self (strip line) = true /\
               h = {| level := determine_heading_level (strip line);
                      text := strip line; page := page_num |}.
Proof.
  unfold page_headings.
  induction lines as [|line lines IH]; intros headings h; simpl.
  - auto.
  - intros H. apply IH in H. destruct H as [H|(l & Hl & Hh)].
    + destruct (is_heading self (strip line)) eqn:E; [|auto].
      apply in_app_or in H. destruct H as [H|[<-|[]]]; [auto|].
      right. exists line. auto.
    + right. exists l. auto.
Qed.

Lemma extract_headings_In (self : PDFOutlineExtractor)
    (pages_text : list (str * nat)) (h : HeadingRecord) :
  In h (extract_headings self pages_text) ->
  exists text page_num line,
    In (text, page_num) pages_text /\ In line (split newline text) /\
    is_heading self (strip line) = true /\
    h = {| level := determine_heading_level (strip line);
           text := strip line; page := page_num |}.
Proof.
  unfold extract_headings.
  assert (G : forall headings,
    In h (fold_left
            (fun headings '(text, page_num) =>
               page_headings self page_num headings (split newline text))
            pages_text headings) ->
    In h headings \/
    exists text page_num line,
      In (text, page_num) pages_text /\ In line (split newline text) /\
      is_heading self (strip line) = true /\
      h = {| level := determine_heading_level (strip line);
             text := strip line; page := page_num |}).
  { induction pages_text as [|[text page_num] rest IH]; intros headings; simpl.
    - auto.
    - intros H. apply IH in H. destruct H as [H|(t & n & l & Hin & Hl & Hh)].
      + apply page_headings_In in H. destruct H as [H|(l & Hl & Hh)]; [auto|].
        right. exists text, page_num, l. auto.
      + right. exists t, n, l. auto. }
  intros H. apply G in H. destruct H as [[]|H]. exact H.
Qed.

(** C10. Every heading record has a trimmed text of 3 to 100 characters
    that does not end in one of . , ; ! ? unless it ends in "...", and its
    level is "H1", "H2" or "H3". *)
Theorem heading_record_shape (self : PDFOutlineExtractor)
    (pages_text : list (str * nat)) (h : HeadingRecord) :
  In h (extract_headings self pages_text) ->
  strip (text h) = text h /\
  3 <= length (text h) <= 100 /\
  ((exists c, sentence_end c /\ ends_in [c] (text h)) ->
   ends_in (lit "...") (text h)) /\
  (level h = lit "H1" \/ level h = lit "H2" \/ level h = lit "H3").
Proof.
  intros H. apply extract_headings_In in H.
  destruct H as (txt & n & line & _ & _ & Hh & ->). simpl.
  apply is_heading_guards in Hh. simpl in Hh. rewrite !strip_idem in Hh.
  destruct Hh as (Hn & _ & Hlen & Hend).
  apply not_noise_length in Hn. rewrite strip_idem in Hn.
  split; [apply strip_idem|]. split; [lia|]. split.
  - intros (c & Hc & He). apply endswith_spec, Hend.
    apply endswith_spec in He. simpl.
    destruct Hc as [->|[->|[->|[->| ->]]]]; unfold lit; simpl list_ascii_of_string;
      rewrite He; rewrite ?orb_true_r; reflexivity.
  - apply level_is_one_of_three.
Qed.

(* ================================================================== *)
(** * The outline builder *)

Lemma extract_outline_ok (d : pdf) (self : PDFOutlineExtractor) :
  usable_pages d <> [] ->
  let t := match extract_title_from_metadata d with
           | Some ((_ :: _) as t) => t
           | _ => extract_title_from_content (usable_pages d)
           end in
  extract_outline d self =
  (inr {| title := t;
          outline := extract_headings {| _detected_title := Some t |}
                                      (usable_pages d) |},
   {| _detected_title := Some t |}).
Proof.
  unfold extract_outline, usable_pages.
  destruct (extract_text_pypdf2 d) as [|p l]; [|reflexivity].
  destruct (extract_text_pdfminer d) as [|p l]; [congruence | reflexivity].
Qed.

Lemma extract_outline_fail (d : pdf) (self : PDFOutlineExtractor) :
  usable_pages d = [] ->
  extract_outline d self =
  (inl (ValueError (lit "Could not extract text from PDF")), self).
Proof.
  unfold extract_outline, usable_pages.
  destruct (extract_text_pypdf2 d) as [|p l]; [|discriminate].
  intros ->. reflexivity.
Qed.

Lemma usable_pages_nil (d : pdf) :
  usable_pages d = [] <->
  extract_text_pypdf2 d = [] /\ extract_text_pdfminer d = [].
Proof.
  unfold usable_pages. destruct (extract_text_pypdf2 d); split.
  - auto.
  - intros [_ H]. exact H.
  - discriminate.
  - intros [H _]. discriminate.
Qed.

Lemma usable_pages_cases (d : pdf) :
  usable_pages d = [] \/ usable_pages d <> [].
Proof. destruct (usable_pages d); [left; reflexivity | right; discriminate]. Qed.

(** C2. In an outline that is returned, no heading has the resolved title
    as its text. *)
Theorem title_not_in_outline (d : pdf) (self self' : PDFOutlineExtractor)
    (out : Outline) :
  extract_outline d self = (inr out, self') ->
  forall h, In h (outline out) -> text h <> title out.
Proof.
  intros H h Hh.
  destruct (usable_pages_cases d) as [E|E].
  - rewrite (extract_outline_fail d self E) in H. discriminate.
  - rewrite (extract_outline_ok d self E) in H. injection H as <- _.
    simpl in *. apply extract_headings_In in Hh.
    destruct Hh as (txt & n & line & _ & _ & Hl & ->). simpl.
    apply is_heading_guards in Hl. simpl in Hl. rewrite strip_idem in Hl.
    destruct Hl as (_ & Ht & _). apply Ht. reflexivity.
Qed.

Lemma title_not_in_outline_witness :
  extract_outline sample_pdf init
    = (inr sample_outline, {| _detected_title := Some (title sample_outline) |}) /\
  forall h, In h (outline sample_outline) -> text h <> title sample_outline.
Proof.
  assert (H : extract_outline sample_pdf init
              = (inr sample_outline,
                 {| _detected_title := Some (title sample_outline) |}))
    by (vm_compute; reflexivity).
  split; [exact H | exact (title_not_in_outline sample_pdf init _ sample_outline H)].
Defined.

(** C8. The outline builder fails exactly when the primary and the fallback
    extraction are both empty, and then with the one error and no outline;
    otherwise it returns an outline with its title and headings. *)
Theorem extract_outline_failure (d : pdf) (self : PDFOutlineExtractor) :
  (fst (extract_outline d self)
     = inl (ValueError (lit "Could not extract text from PDF")) <->
   extract_text_pypdf2 d = [] /\ extract_text_pdfminer d = []) /\
  ((exists out, fst (extract_outline d self) = inr out) <->
   ~ (extract_text_pypdf2 d = [] /\ extract_text_pdfminer d = [])).
Proof.
  rewrite <- usable_pages_nil.
  destruct (usable_pages_cases d) as [E|E].
  - rewrite (extract_outline_fail d self E). simpl. split; split; auto.
    + intros (out & H). discriminate.
    + intros H. contradiction.
  - rewrite (extract_outline_ok d self E). simpl. split; split; auto.
    + discriminate.
    + intros H. contradiction.
    + intros _. eexists. reflexivity.
Qed.

(** C9. The outline does not depend on the title an earlier run left in the
    extractor: two runs on the same document give the same result, from any
    two states, and so does a second run after a first. *)
Theorem extract_outline_idempotent (d : pdf) (self self' : PDFOutlineExtractor) :
  fst (extract_outline d self) = fst (extract_outline d self') /\
  fst (extract_outline d (snd (extract_outline d self)))
    = fst (extract_outline d self).
Proof.
  assert (G : forall a b, fst (extract_outline d a) = fst (extract_outline d b)).
  { intros a b.
    destruct (usable_pages_cases d) as [E|E].
    - rewrite !(extract_outline_fail d _ E). reflexivity.
    - rewrite !(extract_outline_ok d _ E). reflexivity. }
  split; apply G.
Qed.

Lemma heading_record_shape_witness :
  let h := {| level := lit "H1"; text := lit "1. Introduction"; page := 1 |} in
  let pages_text := [(lit "  1. Introduction  ", 1)] in
  In h (extract_headings init pages_text) /\
  strip (text h) = text h /\
  3 <= length (text h) <= 100 /\
  ((exists c, sentence_end c /\ ends_in [c] (text h)) ->
   ends_in (lit "...") (text h)) /\
  (level h = lit "H1" \/ level h = lit "H2" \/ level h = lit "H3").
Proof.
  intros h pages_text.
  assert (H : In h (extract_headings init pages_text))
    by (vm_compute; left; reflexivity).
  split; [exact H | exact (heading_record_shape init pages_text h H)].
Defined.

(* ================================================================== *)
(** * The title resolver *)

Lemma find_app {A : Type} (f : A -> bool) (l1 l2 : list A) :
  find f (l1 ++ l2) = match find f l1 with
                      | Some x => Some x
                      | None => find f l2
                      end.
Proof.
  induction l1 as [|x l1 IH]; simpl; [reflexivity|].
  destruct (f x); [reflexivity | exact IH].
Qed.

Lemma first_title_line_find (lines : list str) :
  first_title_line lines = find title_candidate (map strip lines).
Proof.
  induction lines as [|line lines IH]; simpl; [reflexivity|].
  unfold title_candidate at 1. rewrite IH. reflexivity.
Qed.

Lemma extract_title_from_content_find (pages_text : list (str * nat)) :
  extract_title_from_content pages_text =
  match find title_candidate (all_lines pages_text) with
  | Some line => line
  | None => lit "Untitled Document"
  end.
Proof.
  induction pages_text as [|[txt n] rest IH]; simpl; [reflexivity|].
  rewrite find_app, first_title_line_find.
  destruct (find title_candidate (map strip (split newline txt)));
    [reflexivity | exact IH].
Qed.

(** C7. The title of an outline is the trimmed metadata title when there is
    one and, trimmed, it is not empty and longer than 2 characters;
    otherwise the first line in page order and line order that is not
    empty, longer than 3 characters and not noise; otherwise
    "Untitled Document". *)
Theorem title_resolution (d : pdf) (self self' : PDFOutlineExtractor)
    (out : Outline) :
  extract_outline d self = (inr out, self') ->
  title out = resolve_title_spec (reader_title d) (usable_pages d).
Proof.
  intros H. destruct (usable_pages_cases d) as [E|E].
  - rewrite (extract_outline_fail d self E) in H. discriminate.
  - rewrite (extract_outline_ok d self E) in H. injection H as <- _. simpl.
    unfold resolve_title_spec, extract_title_from_metadata.
    rewrite <- extract_title_from_content_find.
    destruct (reader_title d) as [[|c t]|]; [reflexivity| |reflexivity].
    destruct (strip (c :: t)) as [|c' t'] eqn:Es; [reflexivity|].
    destruct (2 <? length (c' :: t')); reflexivity.
Qed.

Lemma title_resolution_witness :
  extract_outline sample_pdf init
    = (inr sample_outline, {| _detected_title := Some (title sample_outline) |}) /\
  title sample_outline
    = resolve_title_spec (reader_title sample_pdf) (usable_pages sample_pdf).
Proof.
  assert (H : extract_outline sample_pdf init
              = (inr sample_outline,
                 {| _detected_title := Some (title sample_outline) |}))
    by (vm_compute; reflexivity).
  split; [exact H | exact (title_resolution sample_pdf init _ sample_outline H)].
Defined.

(* ================================================================== *)
(** * The level assigner *)

Lemma two_level_form_spec (t : str) :
  re_match two_level_form t = true <->
  exists a b c r,
    t = a ++ "." :: b ++ c :: r /\
    forallb isdigit a = true /\ a <> [] /\
    forallb isdigit b = true /\ b <> [] /\ isspace c = true.
Proof.
  rewrite re_match_den. unfold two_level_form, digit, dot, space. split.
  - intros (e & H). den_inv H.
    do 4 eexists. split; [reflexivity|]. repeat split; assumption.
  - intros (a & b & c & r & -> & Ha & Hna & Hb & Hnb & Hc). exists r. den_build.
Qed.

Lemma three_level_form_spec (t : str) :
  re_match three_level_form t = true <->
  exists a b c r,
    t = a ++ "." :: b ++ "." :: c ++ r /\
    forallb isdigit a = true /\ a <> [] /\
    forallb isdigit b = true /\ b <> [] /\
    forallb isdigit c = true /\ c <> [].
Proof.
  rewrite re_match_den. unfold three_level_form, digit, dot. split.
  - intros (e & H). den_inv H.
    do 4 eexists. split; [reflexivity|]. repeat split; assumption.
  - intros (a & b & c & r & -> & Ha & Hna & Hb & Hnb & Hc & Hnc). exists r.
    den_build.
Qed.

Lemma h1_num_pat_spec (t : str) :
  re_match h1_num_pat t = true <->
  exists a ws r,
    t = a ++ "." :: ws ++ r /\
    forallb isdigit a = true /\ a <> [] /\
    forallb isspace ws = true /\ ws <> [].
Proof.
  rewrite re_match_den. unfold h1_num_pat, digit, dot, space. split.
  - intros (e & H). den_inv H.
    do 3 eexists. split; [reflexivity|]. repeat split; assumption.
  - intros (a & ws & r & -> & Ha & Hna & Hws & Hnws). exists r. den_build.
Qed.

Lemma h2_num_pat_spec (t : str) :
  re_match h2_num_pat t = true <->
  exists a b ws r,
    t = a ++ "." :: b ++ ws ++ r /\
    forallb isdigit a = true /\ a <> [] /\
    forallb isdigit b = true /\ b <> [] /\
    forallb isspace ws = true /\ ws <> [].
Proof.
  rewrite re_match_den. unfold h2_num_pat, digit, dot, space. split.
  - intros (e & H). den_inv H.
    do 4 eexists. split; [reflexivity|]. repeat split; assumption.
  - intros (a & b & ws & r & -> & Ha & Hna & Hb & Hnb & Hws & Hnws). exists r.
    den_build.
Qed.

Lemma title_pat_head (t : str) :
  re_match title_pat t = true -> exists c r, t = c :: r /\ isupper_az c = true.
Proof.
  rewrite re_match_den. unfold title_pat. intros (e & H).
  apply den_cat in H. destruct H as (t0 & (-> & _) & H).
  apply den_cat in H. destruct H as (t1 & (c & -> & Hc) & _).
  exists c, t1. auto.
Qed.

(** After the first number and its dot comes a digit, so [^\d+\.\s+] does
    not match. *)
Lemma digit_after_dot_not_h1 (a b rest : str) :
  forallb isdigit a = true -> forallb isdigit b = true -> b <> [] ->
  re_match h1_num_pat (a ++ "." :: b ++ rest) = false.
Proof.
  intros Ha Hb Hnb.
  destruct (re_match h1_num_pat _) eqn:E; [|reflexivity]. exfalso.
  apply h1_num_pat_spec in E.
  destruct E as (a' & ws & r & E & Ha' & _ & Hws & Hnws).
  destruct (run_unique isdigit a a' "." "." _ _ Ha Ha' eq_refl eq_refl E) as (_ & _ & E').
  destruct b as [|x b]; [contradiction|]. destruct ws as [|y ws]; [contradiction|].
  simpl in *. injection E' as <- _.
  apply andb_prop in Hb, Hws. destruct Hb as [Hx _], Hws as [Hy _].
  apply digit_not_space in Hx. congruence.
Qed.

(** C1, as the code has it. A line whose trimmed form matches
    [^\d+\.\d+\s] gets "H2", unless the trimmed form is longer than 15
    characters and matches the all-caps pattern: the "H1" branch is tried
    first and takes those. *)
Theorem two_level_is_H2 (line : str) :
  re_match two_level_form (strip line) = true ->
  (15 <? length (strip line)) && re_match up_pat (strip line) = false ->
  determine_heading_level line = lit "H2".
Proof.
  intros Hm Hcaps. unfold determine_heading_level.
  set (t := strip line) in *. simpl. rewrite Hcaps.
  apply two_level_form_spec in Hm.
  destruct Hm as (a & b & c & r & Et & Ha & Hna & Hb & Hnb & Hc).
  assert (H1 : re_match h1_num_pat t = false).
  { rewrite Et. apply digit_after_dot_not_h1; assumption. }
  assert (H2 : re_match h2_num_pat t = true).
  { apply h2_num_pat_spec. exists a, b, [c], r. rewrite Et. simpl.
    rewrite Hc. repeat split; try assumption; discriminate. }
  rewrite H1, H2. reflexivity.
Qed.

Lemma two_level_is_H2_witness :
  re_match two_level_form (strip (lit "2.1 Methodology")) = true /\
  (15 <? length (strip (lit "2.1 Methodology")))
    && re_match up_pat (strip (lit "2.1 Methodology")) = false /\
  determine_heading_level (lit "2.1 Methodology") = lit "H2".
Proof.
  split; [reflexivity|]. split; [reflexivity|].
  apply two_level_is_H2; reflexivity.
Defined.

(** C1 fails as stated: "2.1 METHODOLOGY AND RESULTS" matches
    [^\d+\.\d+\s] and is given "H1". *)
Lemma two_level_not_always_H2 :
  re_match two_level_form long_caps_subsection = true /\
  determine_heading_level long_caps_subsection = lit "H1" /\
  determine_heading_level long_caps_subsection <> lit "H2".
Proof. split; [reflexivity|]. split; [reflexivity | discriminate]. Qed.

(** C4, as the code has it. A line whose trimmed form begins with a numbered
    form of three or more levels gets "H3", unless it matches the all-caps
    pattern, which is tried before the default. *)
Theorem three_level_is_H3 (line : str) :
  re_match three_level_form (strip line) = true ->
  re_match up_pat (strip line) = false ->
  determine_heading_level line = lit "H3".
Proof.
  intros Hm Hcaps. unfold determine_heading_level.
  set (t := strip line) in *. simpl. rewrite Hcaps, !andb_false_r.
  apply three_level_form_spec in Hm.
  destruct Hm as (a & b & c & r & Et & Ha & Hna & Hb & Hnb & Hc & Hnc).
  assert (H1 : re_match h1_num_pat t = false).
  { rewrite Et. apply digit_after_dot_not_h1; assumption. }
  assert (H2 : re_match h2_num_pat t = false).
  { destruct (re_match h2_num_pat t) eqn:E; [|reflexivity]. exfalso.
    apply h2_num_pat_spec in E.
    destruct E as (a' & b' & ws & r' & E & Ha' & _ & Hb' & _ & Hws & Hnws).
    rewrite Et in E.
    destruct (run_unique isdigit a a' "." "." _ _ Ha Ha' eq_refl eq_refl E)
      as (_ & _ & E').
    destruct ws as [|y ws]; [contradiction|]. simpl in Hws, E'.
    apply andb_prop in Hws. destruct Hws as [Hy _].
    destruct (run_unique isdigit b b' "." y _ _ Hb Hb' eq_refl
                (space_not_digit y Hy) E') as (_ & <- & _).
    discriminate. }
  assert (H3 : re_match title_pat t = false).
  { destruct (re_match title_pat t) eqn:E; [|reflexivity]. exfalso.
    apply title_pat_head in E. destruct E as (x & r' & E & Hx).
    rewrite Et in E. destruct a as [|d a]; [contradiction|].
    simpl in Ha, E. injection E as -> _.
    apply andb_prop in Ha. destruct Ha as [Hd _].
    apply digit_not_upper in Hd. congruence. }
  rewrite H1, H2, H3. reflexivity.
Qed.

Lemma three_level_is_H3_witness :
  re_match three_level_form (strip (lit "1.1.1 Detail")) = true /\
  re_match up_pat (strip (lit "1.1.1 Detail")) = false /\
  determine_heading_level (lit "1.1.1 Detail") = lit "H3".
Proof.
  split; [reflexivity|]. split; [reflexivity|].
  apply three_level_is_H3; reflexivity.
Defined.

(** C4 fails as stated: "1.1.1 DETAIL" is accepted by the line classifier,
    begins with a three-level numbered form, and is given "H2". *)
Lemma three_level_not_always_H3 :
  is_heading init caps_subsubsection = true /\
  re_match three_level_form caps_subsubsection = true /\
  determine_heading_level caps_subsubsection = lit "H2" /\
  determine_heading_level caps_subsubsection <> lit "H3".
Proof.
  split; [reflexivity|]. split; [reflexivity|].
  split; [reflexivity | discriminate].
Qed.

(* ================================================================== *)
(** * The lowercase guard and binary64 *)

(** Up to 100 characters the binary64 comparison is the exact one, except
    at 63 lowercase characters out of 90, where [90 * 0.7] is rounded below
    63. *)
Lemma exceeds_product_exact (count n : nat) :
  n <= 100 -> count <= n -> (n, count) <> (90, 63) ->
  exceeds_product count n = (7 * n <? 10 * count).
Proof.
  intros Hn Hc Hne.
  assert (G : forallb (fun n => forallb (fun c =>
                (n =? 90) && (c =? 63) || same_verdict c n) (seq 0 (S n)))
                (seq 0 101) = true) by (vm_compute; reflexivity).
  rewrite forallb_forall in G. specialize (G n).
  rewrite forallb_forall in G.
  assert (G' := G ltac:(apply in_seq; lia) count ltac:(apply in_seq; lia)).
  apply orb_true_iff in G'. destruct G' as [G'|G'].
  - apply andb_prop in G'. destruct G' as [G1 G2].
    apply Nat.eqb_eq in G1, G2. congruence.
  - unfold same_verdict in G'. apply Bool.eqb_prop in G'. exact G'.
Qed.

Lemma exceeds_product_90_63 :
  exceeds_product 63 90 = true /\ (7 * 90 <? 10 * 63) = false.
Proof. split; reflexivity. Qed.

(** Away from that one point the line classifier is the specification's
    conjunction of guards and patterns. *)
Lemma is_heading_matches_spec (self : PDFOutlineExtractor) (line : str) :
  (length (strip line), length (filter islower (strip line))) <> (90, 63) ->
  is_heading self line = is_heading_spec (_detected_title self) (strip line).
Proof.
  intros Hne. unfold is_heading, is_heading_spec. set (t := strip line) in *.
  destruct (is_noise t) eqn:Hn; [reflexivity|]. simpl negb at 1.
  assert (Ht : match _detected_title self with
               | Some ((_ :: _) as t0) => str_eqb t t0
               | _ => false
               end
               = negb match _detected_title self with
                      | Some t0 => negb (str_eqb t t0)
                      | None => true
                      end).
  { destruct (_detected_title self) as [[|c t0]|]; try reflexivity.
    - destruct (str_eqb t []) eqn:E; [|reflexivity].
      apply str_eqb_eq in E. apply not_noise_length in Hn. unfold t in Hn.
      rewrite strip_idem in Hn. fold t in Hn. rewrite E in Hn. simpl in Hn. lia.
    - rewrite negb_involutive. reflexivity. }
  rewrite Ht. clear Ht.
  destruct (match _detected_title self with
            | Some t0 => negb (str_eqb t t0)
            | None => true
            end); [|reflexivity].
  simpl negb. rewrite andb_true_l.
  destruct (Nat.ltb_spec 100 (length t)) as [Hl|Hl].
  - apply Nat.leb_gt in Hl. rewrite Hl. reflexivity.
  - apply Nat.leb_le in Hl as Hl'. rewrite Hl'.
    destruct (contains _ t); [reflexivity|].
    assert (Hm : mostly_lower t = over_70_percent_lower t).
    { unfold mostly_lower, over_70_percent_lower.
      apply exceeds_product_exact; [exact Hl | apply filter_length_le|].
      intros E. apply Hne. congruence. }
    rewrite Hm. destruct ((50 <? length t) && over_70_percent_lower t);
      [reflexivity|].
    unfold lit. simpl list_ascii_of_string. simpl existsb.
    repeat match goal with
           | |- context [endswith ?s t] => destruct (endswith s t)
           end;
      destruct (re_match num_pat t); destruct (re_match up_pat t);
      destruct (re_match title_pat t); reflexivity.
Qed.

(** C3 at its failing input: a 90-character title-case line with exactly 63
    lowercase letters passes every guard as the specification states them,
    the lowercase guard too since 63 is not more than 70% of 90, and matches
    the title-case pattern; the classifier rejects it. *)
Theorem is_heading_rejects_seventy_percent :
  length seventy_percent_line = 90 /\
  length (filter islower seventy_percent_line) = 63 /\
  strip seventy_percent_line = seventy_percent_line /\
  re_match title_pat seventy_percent_line = true /\
  is_heading_spec None seventy_percent_line = true /\
  mostly_lower seventy_percent_line = true /\
  is_heading init seventy_percent_line = false.
Proof. repeat split; vm_compute; reflexivity. Qed.

(* ================================================================== *)
(** * The scenarios of the specification *)

Example scenario_introduction :
  extract_headings init [(lit "1. Introduction", 1)]
  = [ {| level := lit "H1"; text := lit "1. Introduction"; page := 1 |} ].
Proof. reflexivity. Qed.

Example scenario_background :
  extract_headings init [(lit "BACKGROUND", 2)]
  = [ {| level := lit "H2"; text := lit "BACKGROUND"; page := 2 |} ].
Proof. reflexivity. Qed.

Example scenario_experimental_setup :
  extract_headings init [(lit "Experimental Setup", 4)]
  = [ {| level := lit "H2"; text := lit "Experimental Setup"; page := 4 |} ].
Proof. reflexivity. Qed.

Example scenario_page_footer :
  is_noise (lit "Page 12") = true /\
  extract_headings init [(lit "Page 12", 1)] = [].
Proof. split; reflexivity. Qed.

Example scenario_title_from_content :
  title sample_outline = lit "A Study of Outlines" /\
  map text (outline sample_outline)
  = [ lit "1. Introduction"; lit "2.1 Methodology"; lit "BACKGROUND";
      lit "1.1.1 Detail"; lit "Experimental Setup" ].
Proof. split; reflexivity. Qed.

(* ================================================================== *)
(** * The three surface patterns *)

Lemma digit_not_newline (c : ascii) : isdigit c = true -> c <> newline.
Proof. each_char c. Qed.

Lemma up_class_not_newline (c : ascii) :
  up_class c = true -> Ascii.eqb c newline = false.
Proof. each_char c. Qed.

Lemma den_star_unfold (w : str) (a : regex) (s s' : str) :
  den w (Star a) s s' <->
  s' = s \/ exists y, den w a s y /\ den w (Star a) y s'.
Proof.
  simpl. split.
  - intros H. destruct H as [|y z Hxy Hyz]; [left; reflexivity|].
    right. exists y. auto.
  - intros [->|(y & Hxy & Hyz)].
    + apply Relation_Operators.rt1n_refl.
    + eapply Relation_Operators.rt1n_trans; eassumption.
Qed.

(** X1. The numbered pattern [^\d+(\.\d+)*[\.\s]+.+] matches exactly the
    texts that begin with one or more digits, then a dot or white-space
    character, then any number of those, then a character that is not a
    newline: the group [(\.\d+)*] adds nothing. *)
Theorem num_pat_spec (t : str) :
  re_match num_pat t = true <->
  exists a c seps x r,
    t = a ++ c :: seps ++ x :: r /\
    forallb isdigit a = true /\ a <> [] /\
    dot_or_space c = true /\ forallb dot_or_space seps = true /\
    x <> newline.
Proof.
  rewrite re_match_den. unfold num_pat, digit, dot, Any. split.
  - intros (e & H).
    apply den_cat in H. destruct H as (s0 & (-> & _) & H).
    apply den_cat in H. destruct H as (s1 & P1 & H).
    apply den_plus_cls in P1. destruct P1 as (a & -> & Ha & Hna).
    apply den_cat in H. destruct H as (s2 & Pstar & H).
    apply den_cat in H. destruct H as (s3 & P3 & H).
    apply den_plus_cls in P3. destruct P3 as (ss & E3 & Hss & Hnss).
    apply den_plus_cls in H. destruct H as (l & -> & Hl & Hnl).
    apply den_star_unfold in Pstar. destruct Pstar as [->|(y & Hstep & _)].
    + subst s1. destruct ss as [|c seps]; [contradiction|].
      destruct l as [|x l]; [contradiction|].
      simpl in Hss, Hl. apply andb_prop in Hss, Hl.
      destruct Hss as [Hc Hseps], Hl as [Hx _].
      exists a, c, seps, x, (l ++ e).
      repeat split; try assumption; try reflexivity.
      intros ->. discriminate.
    + apply den_cat in Hstep. destruct Hstep as (u & Hdot & Hd).
      apply den_chr in Hdot. subst s1.
      apply den_plus_cls in Hd. destruct Hd as ([|d ds] & -> & Hds & Hne);
        [contradiction|].
      simpl in Hds. apply andb_prop in Hds. destruct Hds as [Hd _].
      exists a, ".", [], d, (ds ++ y). repeat split; try assumption.
      apply digit_not_newline, Hd.
  - intros (a & c & seps & x & r & -> & Ha & Hna & Hc & Hseps & Hx).
    exists r.
    apply den_cat. eexists. split; [apply den_bol; split; reflexivity|].
    apply den_cat. eexists. split;
      [apply den_plus_cls; eexists; split; [reflexivity | split; eassumption]|].
    apply den_cat. exists (c :: seps ++ x :: r).
    split; [apply den_star_unfold; left; reflexivity|].
    apply den_cat. exists (x :: r). split.
    + apply den_plus_cls. exists (c :: seps). simpl. rewrite Hc, Hseps.
      repeat split. discriminate.
    + apply den_plus_cls. exists [x]. simpl.
      destruct (Ascii.eqb_spec x newline) as [E|E]; [contradiction|].
      repeat split. discriminate.
Qed.

(** X2. On a trimmed line the all-caps pattern [^(?=.*[A-Z])[A-Z0-9. ]+$]
    matches exactly when every character is an uppercase letter, a digit, a
    dot or a space, and at least one is an uppercase letter. *)
Theorem up_pat_spec (line : str) :
  re_match up_pat (strip line) = true <->
  forallb up_class (strip line) = true /\
  existsb isupper_az (strip line) = true.
Proof.
  pose proof (strip_ends_clean line) as Hc. set (t := strip line) in *.
  clearbody t. rewrite re_match_den. unfold up_pat. split.
  - intros (e & H). destruct (den_suffix _ _ _ _ H) as (pre & Hpre).
    apply den_cat in H. destruct H as (s0 & (-> & _) & H).
    apply den_cat in H. destruct H as (s1 & (-> & (s2 & Hla)) & H).
    apply den_cat in H. destruct H as (s3 & Hbody & (-> & He)).
    apply (Hc _ _ Hpre) in He. subst s3.
    apply den_plus_cls in Hbody. destruct Hbody as (u & Eu & Hu & _).
    rewrite app_nil_r in Eu. subst u. split; [exact Hu|].
    apply den_cat in Hla. destruct Hla as (s4 & Hany & (c & -> & Hup)).
    apply den_star_cls in Hany. destruct Hany as (l & -> & _).
    apply existsb_exists. exists c. split; [|exact Hup].
    apply in_or_app. right. left. reflexivity.
  - intros (Hall & Hex). apply existsb_exists in Hex.
    destruct Hex as (c & Hin & Hup). apply in_split in Hin.
    destruct Hin as (l & r & ->). exists [].
    apply den_cat. eexists. split; [apply den_bol; split; reflexivity|].
    apply den_cat. eexists. split.
    + split; [reflexivity|]. exists r.
      apply den_cat. exists (c :: r). split; [|exists c; auto].
      apply den_star_cls. exists l. split; [reflexivity|].
      rewrite forallb_app in Hall. apply andb_prop in Hall.
      destruct Hall as [Hl _]. rewrite forallb_forall in *.
      intros x Hx. rewrite (up_class_not_newline x (Hl x Hx)). reflexivity.
    + apply den_cat. exists []. split; [|split; reflexivity].
      apply den_plus_cls. exists (l ++ c :: r). rewrite app_nil_r.
      repeat split; [exact Hall|]. destruct l; discriminate.
Qed.

(** X3. On a trimmed line the title-case pattern
    [^[A-Z][a-zA-Z0-9 ,\-\:]{4,}$] matches exactly when the line is an
    uppercase letter followed by at least four characters, each a letter, a
    digit, a space, a comma, a hyphen or a colon. *)
Theorem title_pat_spec (line : str) :
  re_match title_pat (strip line) = true <->
  exists c r,
    strip line = c :: r /\ isupper_az c = true /\
    forallb title_class r = true /\ 4 <= length r.
Proof.
  pose proof (strip_ends_clean line) as Hc. set (t := strip line) in *.
  clearbody t. rewrite re_match_den. unfold title_pat. split.
  - intros (e & H). destruct (den_suffix _ _ _ _ H) as (pre & Hpre).
    den_inv H. apply (Hc _ _ Hpre) in H. subst.
    do 2 eexists. split; [reflexivity|]. rewrite app_nil_r. auto.
  - intros (c & r & -> & Hup & Hr & Hlen). exists [].
    rewrite <- (app_nil_r r). den_build.
Qed.

(* ================================================================== *)
(** * More on the classifier and the levels *)

(** X4. The noise filter, the line classifier and the level assigner look at
    the trimmed line only: white space around a line changes none of the
    three answers. *)
Theorem trimmed_line_decides (self : PDFOutlineExtractor) (line : str) :
  is_noise (strip line) = is_noise line /\
  is_heading self (strip line) = is_heading self line /\
  determine_heading_level (strip line) = determine_heading_level line.
Proof.
  split; [apply is_noise_strip|].
  unfold is_heading, determine_heading_level. rewrite strip_idem. auto.
Qed.

Lemma is_heading_patterns (self : PDFOutlineExtractor) (line : str) :
  is_heading self line = true ->
  re_match num_pat (strip line) = true \/
  re_match up_pat (strip line) = true \/
  re_match title_pat (strip line) = true.
Proof.
  unfold is_heading. set (t := strip line).
  repeat match goal with
         | |- (if ?b then false else _) = true -> _ =>
             destruct b; [discriminate|]
         end.
  destruct (re_match num_pat t); [auto|].
  destruct (re_match up_pat t); [rewrite andb_true_r; auto|].
  rewrite andb_false_r. destruct (re_match title_pat t); [auto | discriminate].
Qed.

Lemma num_pat_head (t : str) :
  re_match num_pat t = true -> exists d r, t = d :: r /\ isdigit d = true.
Proof.
  rewrite re_match_den. unfold num_pat, digit. intros (e & H).
  apply den_cat in H. destruct H as (s0 & (-> & _) & H).
  apply den_cat in H. destruct H as (s1 & P & _).
  apply den_plus_cls in P. destruct P as ([|d a] & -> & Ha & Hne);
    [contradiction|].
  simpl in Ha. apply andb_prop in Ha. destruct Ha as [Hd _].
  exists d, (a ++ s1). auto.
Qed.

(** X5. A heading of level "H3" is always a numbered line: its text begins
    with a digit and matches the numbered pattern, and matches neither the
    all-caps nor the title-case pattern. *)
Theorem h3_is_numbered (self : PDFOutlineExtractor) (line : str) :
  is_heading self line = true ->
  determine_heading_level line = lit "H3" ->
  re_match num_pat (strip line) = true /\
  re_match up_pat (strip line) = false /\
  re_match title_pat (strip line) = false /\
  exists d r, strip line = d :: r /\ isdigit d = true.
Proof.
  intros Hh Hl. apply is_heading_patterns in Hh.
  unfold determine_heading_level in Hl. set (t := strip line) in *.
  destruct (re_match h1_num_pat t || (15 <? length t) && re_match up_pat t)
    eqn:E1; [discriminate|].
  destruct (re_match h2_num_pat t || (length t <=? 15) && re_match up_pat t
            || re_match title_pat t) eqn:E2; [discriminate|].
  apply orb_false_iff in E1. destruct E1 as [_ E1].
  apply orb_false_iff in E2. destruct E2 as [E2 Ht].
  apply orb_false_iff in E2. destruct E2 as [_ E2].
  assert (Hu : re_match up_pat t = false).
  { destruct (re_match up_pat t); [|reflexivity].
    rewrite andb_true_r in E1, E2. apply Nat.ltb_ge in E1.
    apply Nat.leb_gt in E2. lia. }
  destruct Hh as [Hn|[Hn|Hn]]; [|congruence..].
  repeat split; try assumption. apply num_pat_head, Hn.
Qed.

Lemma h3_is_numbered_witness :
  is_heading init (lit "1.1.1 Detail") = true /\
  determine_heading_level (lit "1.1.1 Detail") = lit "H3" /\
  re_match num_pat (strip (lit "1.1.1 Detail")) = true /\
  re_match up_pat (strip (lit "1.1.1 Detail")) = false /\
  re_match title_pat (strip (lit "1.1.1 Detail")) = false /\
  exists d r, strip (lit "1.1.1 Detail") = d :: r /\ isdigit d = true.
Proof.
  split; [reflexivity|]. split; [reflexivity|].
  apply (h3_is_numbered init); reflexivity.
Defined.

(** X6. For a line of at most 100 characters the lowercase guard, computed
    in binary64, says "more than 70% lowercase" exactly when 10 times the
    number of lowercase characters exceeds 7 times the length, except for 63
    lowercase characters out of 90. *)
Theorem mostly_lower_exact (line : str) :
  length line <= 100 ->
  (length line, length (filter islower line)) <> (90, 63) ->
  mostly_lower line = (7 * length line <? 10 * length (filter islower line)).
Proof.
  intros Hl Hne. unfold mostly_lower.
  apply exceeds_product_exact; [exact Hl | apply filter_length_le | exact Hne].
Qed.

Lemma mostly_lower_exact_witness :
  length (lit "this is prose that goes on and on without any capitals") <= 100 /\
  mostly_lower (lit "this is prose that goes on and on without any capitals")
  = true.
Proof.
  assert (H : length (lit "this is prose that goes on and on without any capitals")
              <= 100) by (vm_compute; lia).
  split; [exact H|].
  rewrite (mostly_lower_exact _ H); [reflexivity|].
  vm_compute. intros E. discriminate E.
Defined.

(* ================================================================== *)
(** * Splitting into pages and lines *)

Lemma split_nonempty (sep : ascii) (s : str) : split sep s <> [].
Proof.
  destruct s as [|c s]; simpl; [discriminate|].
  destruct (Ascii.eqb c sep); [discriminate|].
  destruct (split sep s); discriminate.
Qed.

Lemma split_pieces (sep : ascii) (s : str) :
  join sep (split sep s) = s /\
  forall piece, In piece (split sep s) -> ~ In sep piece.
Proof.
  induction s as [|c s [IHj IHn]]; simpl.
  - split; [reflexivity|]. intros piece [<-|[]] [].
  - destruct (Ascii.eqb_spec c sep) as [->|Hne].
    + split.
      * simpl. pose proof (split_nonempty sep s) as Hs.
        destruct (split sep s) as [|p rest]; [contradiction|].
        rewrite <- IHj. reflexivity.
      * intros piece [<-|H]; [intros [] | apply IHn, H].
    + pose proof (split_nonempty sep s) as Hs.
      destruct (split sep s) as [|p rest]; [contradiction|]. split.
      * rewrite <- IHj. destruct rest; reflexivity.
      * intros piece [<-|H].
        -- intros [E|E]; [congruence|]. apply (IHn p); [left; reflexivity | exact E].
        -- apply IHn. right. exact H.
Qed.

(** X7. Splitting a page into lines loses nothing and leaves no newline:
    the lines joined by newlines are the page text again, and no line that
    the title pass or the heading pass looks at contains a newline.  The
    same holds for the form feeds between the pages of the fallback
    extractor. *)
Theorem split_join (text : str) :
  join newline (split newline text) = text /\
  (forall line, In line (split newline text) -> ~ In newline line) /\
  join formfeed (split formfeed text) = text /\
  (forall page_text, In page_text (split formfeed text) ->
                     ~ In formfeed page_text).
Proof.
  destruct (split_pieces newline text) as [H1 H2].
  destruct (split_pieces formfeed text) as [H3 H4]. auto.
Qed.

Lemma strip_nil_iff (s : str) : strip s = [] <-> forallb isspace s = true.
Proof.
  split.
  - intros H. destruct (strip_infix s) as (a & b & E).
    destruct (lstrip_split s) as (a' & Ea & Ha).
    destruct (rstrip_split (lstrip s)) as (b' & Eb & Hb).
    fold (strip s) in Eb. rewrite H in Eb. simpl in Eb.
    rewrite Ea, Eb, forallb_app, Ha, Hb. reflexivity.
  - intros H. unfold strip.
    assert (G : forall l, forallb isspace l = true -> lstrip l = []).
    { induction l as [|c l IH]; simpl; [reflexivity|].
      intros Hl. apply andb_prop in Hl. destruct Hl as [-> Hl]. auto. }
    rewrite (G s H). reflexivity.
Qed.

Lemma forallb_split (f : ascii -> bool) (sep : ascii) (s : str) :
  f sep = true ->
  (forallb f s = true <->
   forall piece, In piece (split sep s) -> forallb f piece = true).
Proof.
  intros Hsep. induction s as [|c s IH]; simpl.
  - split; [intros _ piece [<-|[]]; reflexivity | reflexivity].
  - pose proof (split_nonempty sep s) as Hne.
    destruct (Ascii.eqb_spec c sep) as [->|Hc].
    + rewrite Hsep. simpl. rewrite IH. split.
      * intros H piece [<-|Hp]; [reflexivity | auto].
      * intros H piece Hp. apply H. right. exact Hp.
    + destruct (split sep s) as [|p rest]; [contradiction|].
      rewrite andb_true_iff, IH. split.
      * intros [Hfc H] piece [<-|Hp].
        -- simpl. rewrite Hfc. apply H. left. reflexivity.
        -- apply H. right. exact Hp.
      * intros H. pose proof (H (c :: p) (or_introl eq_refl)) as H0.
        simpl in H0. apply andb_prop in H0. destruct H0 as [Hfc Hp].
        split; [exact Hfc|]. intros piece [<-|Hin]; [exact Hp|].
        apply H. right. exact Hin.
Qed.

(* ================================================================== *)
(** * The two text extractors *)

Lemma number_pages_In (pages : list str) : forall page_num t n,
  In (t, n) (number_pages page_num pages) <->
  page_num <= n /\ nth_error pages (n - page_num) = Some t /\ strip t <> [].
Proof.
  induction pages as [|p rest IH]; intros k t n; simpl.
  - split; [intros [] | intros (_ & H & _)].
    destruct (n - k); discriminate.
  - assert (Hrest : In (t, n) (number_pages (S k) rest) <->
                    k < n /\ nth_error rest (n - S k) = Some t /\ strip t <> [])
      by (rewrite IH; reflexivity).
    assert (Hstep : forall keep : Prop,
      (keep <-> strip p <> []) ->
      ((keep /\ (p, k) = (t, n)) \/ In (t, n) (number_pages (S k) rest) <->
       k <= n /\ nth_error (p :: rest) (n - k) = Some t /\ strip t <> [])).
    { intros keep Hk. rewrite Hrest. split.
      - intros [[Hkeep E]|(Hlt & Hn & Hs)].
        + injection E as -> ->. rewrite Nat.sub_diag. simpl.
          repeat split; [lia | apply Hk, Hkeep].
        + replace (n - k) with (S (n - S k)) by lia. simpl. auto with arith.
      - intros (Hle & Hn & Hs). destruct (Nat.eq_dec n k) as [->|Hne].
        + rewrite Nat.sub_diag in Hn. simpl in Hn. injection Hn as ->.
          left. split; [apply Hk, Hs | reflexivity].
        + right. replace (n - k) with (S (n - S k)) in Hn by lia.
          simpl in Hn. repeat split; [lia | exact Hn | exact Hs]. }
    destruct (strip p) as [|c s] eqn:Es.
    + rewrite <- (Hstep False); [tauto|]. split; [intros [] | congruence].
    + simpl. rewrite <- (Hstep True); [tauto|]. split; [discriminate | auto].
Qed.

(** X8. The primary extractor returns the pair of a text and a number
    exactly for the pages that are not blank, each with its 1-based position
    among all pages of the document, blank ones counted; a reader that
    raises gives no page. *)
Theorem extract_text_pypdf2_In (d : pdf) (t : str) (n : nat) :
  In (t, n) (extract_text_pypdf2 d) <->
  exists pages, reader_pages d = Some pages /\
                1 <= n /\ nth_error pages (n - 1) = Some t /\ strip t <> [].
Proof.
  unfold extract_text_pypdf2. destruct (reader_pages d) as [pages|].
  - rewrite number_pages_In. split.
    + intros H. exists pages. auto.
    + intros (ps & E & H). injection E as <-. exact H.
  - split; [intros [] | intros (ps & E & _); discriminate].
Qed.

(** X9. The fallback extractor returns the pieces of the text between form
    feeds that are not blank, each with its 1-based position among all
    pieces; no page it returns contains a form feed. *)
Theorem extract_text_pdfminer_In (d : pdf) (t : str) (n : nat) :
  In (t, n) (extract_text_pdfminer d) <->
  exists full_text, miner_text d = Some full_text /\
    1 <= n /\ nth_error (split formfeed full_text) (n - 1) = Some t /\
    strip t <> [] /\ ~ In formfeed t.
Proof.
  unfold extract_text_pdfminer. destruct (miner_text d) as [full_text|].
  - rewrite number_pages_In. split.
    + intros (Hn & Hnth & Hs). exists full_text. repeat split; try assumption.
      apply (proj2 (split_pieces formfeed full_text)).
      eapply nth_error_In, Hnth.
    + intros (ft & E & Hn & Hnth & Hs & _). injection E as <-. auto.
  - split; [intros [] | intros (ft & E & _); discriminate].
Qed.

Lemma number_pages_sorted (pages : list str) : forall page_num,
  StronglySorted lt (map snd (number_pages page_num pages)).
Proof.
  induction pages as [|p rest IH]; intros k; simpl; [constructor|].
  assert (Hall : Forall (lt k) (map snd (number_pages (S k) rest))).
  { apply Forall_forall. intros n Hn. apply in_map_iff in Hn.
    destruct Hn as ([t n'] & <- & Hin). apply number_pages_In in Hin.
    simpl. lia. }
  destruct (strip p); [apply IH|]. simpl. constructor; [apply IH | exact Hall].
Qed.

(** X10. Both extractors return their pages in strictly increasing page
    number, starting at 1 or later. *)
Theorem extracted_pages_increase (d : pdf) :
  StronglySorted lt (map snd (extract_text_pypdf2 d)) /\
  StronglySorted lt (map snd (extract_text_pdfminer d)) /\
  Forall (le 1) (map snd (extract_text_pypdf2 d)) /\
  Forall (le 1) (map snd (extract_text_pdfminer d)).
Proof.
  assert (G : forall pages, Forall (le 1) (map snd (number_pages 1 pages))).
  { intros pages. apply Forall_forall. intros n Hn. apply in_map_iff in Hn.
    destruct Hn as ([t n'] & <- & Hin). apply number_pages_In in Hin.
    simpl. lia. }
  unfold extract_text_pypdf2, extract_text_pdfminer.
  destruct (reader_pages d), (miner_text d); simpl;
    repeat split; try constructor; try apply number_pages_sorted; apply G.
Qed.

Lemma number_pages_nil (pages : list str) : forall page_num,
  number_pages page_num pages = [] <->
  forall p, In p pages -> forallb isspace p = true.
Proof.
  induction pages as [|p rest IH]; intros k; simpl.
  - split; [intros _ p [] | reflexivity].
  - destruct (strip p) as [|c s] eqn:Es.
    + rewrite IH. apply strip_nil_iff in Es. split.
      * intros H q [<-|Hq]; auto.
      * intros H q Hq. apply H. right. exact Hq.
    + split; [discriminate|]. intros H.
      assert (E : strip p = []) by (apply strip_nil_iff, H; left; reflexivity).
      congruence.
Qed.

(** X11. The fallback extractor gives no page exactly when pdfminer raises
    or its text is white space throughout (a form feed is white space), and
    the primary one exactly when the reader raises or every page is. *)
Theorem extraction_empty (d : pdf) :
  (extract_text_pdfminer d = [] <->
   match miner_text d with
   | Some full_text => forallb isspace full_text = true
   | None => True
   end) /\
  (extract_text_pypdf2 d = [] <->
   match reader_pages d with
   | Some pages => forall p, In p pages -> forallb isspace p = true
   | None => True
   end).
Proof.
  unfold extract_text_pdfminer, extract_text_pypdf2. split.
  - destruct (miner_text d) as [full_text|]; [|tauto].
    rewrite number_pages_nil. symmetry. apply forallb_split. reflexivity.
  - destruct (reader_pages d) as [pages|]; [|tauto]. apply number_pages_nil.
Qed.

(* ================================================================== *)
(** * More on titles *)

(** X12. The metadata title is taken exactly when the document has one
    whose trimmed form is longer than 2 characters, and what is taken is the
    trimmed form; a reader that raises, missing metadata, a missing or an
    empty title give none. *)
Theorem extract_title_from_metadata_spec (d : pdf) (t : str) :
  extract_title_from_metadata d = Some t <->
  exists raw, reader_title d = Some raw /\ t = strip raw /\ 2 < length t.
Proof.
  unfold extract_title_from_metadata.
  destruct (reader_title d) as [[|c r]|].
  - split; [discriminate|]. intros (raw & E & -> & H). injection E as <-.
    vm_compute in H. lia.
  - destruct (strip (c :: r)) as [|c' r'] eqn:Es; cbn [andb].
    + split; [discriminate|]. intros (raw & E & -> & H). injection E as <-.
      rewrite Es in H. simpl in H. lia.
    + destruct (Nat.ltb_spec 2 (length (c' :: r'))) as [Hl|Hl].
      * split.
        -- intros E. injection E as <-. exists (c :: r). auto.
        -- intros (raw & E & -> & _). injection E as <-. rewrite Es. reflexivity.
      * split; [discriminate|]. intros (raw & E & -> & H). injection E as <-.
        rewrite Es in H. lia.
  - split; [discriminate | intros (raw & E & _); discriminate].
Qed.

(** X13. The title of an outline is never blank: it is trimmed and at least
    3 characters long, whichever of metadata, content and the default it
    comes from. *)
Theorem title_is_trimmed (d : pdf) (self self' : PDFOutlineExtractor)
    (out : Outline) :
  extract_outline d self = (inr out, self') ->
  strip (title out) = title out /\ 3 <= length (title out).
Proof.
  intros H. destruct (usable_pages_cases d) as [E|E].
  - rewrite (extract_outline_fail d self E) in H. discriminate.
  - rewrite (extract_outline_ok d self E) in H. injection H as <- _. simpl.
    unfold extract_title_from_metadata.
    assert (G : strip (extract_title_from_content (usable_pages d))
                = extract_title_from_content (usable_pages d) /\
                3 <= length (extract_title_from_content (usable_pages d))).
    { rewrite extract_title_from_content_find.
      destruct (find title_candidate (all_lines (usable_pages d))) as [l|] eqn:F.
      - apply find_some in F. destruct F as [Hin Hc].
        unfold all_lines in Hin. apply in_flat_map in Hin.
        destruct Hin as (p & _ & Hin). apply in_map_iff in Hin.
        destruct Hin as (raw & <- & _). split; [apply strip_idem|].
        unfold title_candidate in Hc. apply andb_prop in Hc.
        destruct Hc as [Hc _]. apply andb_prop in Hc. destruct Hc as [_ Hc].
        apply Nat.ltb_lt in Hc. lia.
      - split; [reflexivity | vm_compute; lia]. }
    destruct (reader_title d) as [[|c r]|]; try exact G.
    destruct (strip (c :: r)) as [|c' r'] eqn:Es; [exact G|]. cbn [andb].
    destruct (Nat.ltb_spec 2 (length (c' :: r'))) as [Hl|Hl]; [|exact G].
    rewrite <- Es. split; [apply strip_idem|]. rewrite Es. exact Hl.
Qed.

Lemma title_is_trimmed_witness :
  extract_outline sample_pdf init
    = (inr sample_outline, {| _detected_title := Some (title sample_outline) |}) /\
  strip (title sample_outline) = title sample_outline /\
  3 <= length (title sample_outline).
Proof.
  assert (H : extract_outline sample_pdf init
              = (inr sample_outline,
                 {| _detected_title := Some (title sample_outline) |}))
    by (vm_compute; reflexivity).
  split; [exact H | exact (title_is_trimmed sample_pdf init _ sample_outline H)].
Defined.

(* ================================================================== *)
(** * More on the heading pass *)

Lemma page_headings_flat (self : PDFOutlineExtractor) (page_num : nat)
    (text : str) : forall headings,
  page_headings self page_num headings (split newline text)
  = headings ++ headings_of_page self (text, page_num).
Proof.
  unfold page_headings, headings_of_page. simpl fst. simpl snd.
  induction (split newline text) as [|line lines IH]; intros headings; simpl.
  - rewrite app_nil_r. reflexivity.
  - rewrite IH. destruct (is_heading self (strip line)).
    + rewrite <- app_assoc. reflexivity.
    + reflexivity.
Qed.

Lemma extract_headings_flat (self : PDFOutlineExtractor)
    (pages_text : list (str * nat)) :
  extract_headings self pages_text
  = flat_map (headings_of_page self) pages_text.
Proof.
  unfold extract_headings.
  assert (G : forall headings,
    fold_left (fun headings '(text, page_num) =>
                 page_headings self page_num headings (split newline text))
              pages_text headings
    = headings ++ flat_map (headings_of_page self) pages_text).
  { induction pages_text as [|[text n] rest IH]; intros headings; simpl.
    - rewrite app_nil_r. reflexivity.
    - rewrite IH, page_headings_flat, <- app_assoc. reflexivity. }
  apply G.
Qed.

(** X14. The heading pass works page by page and line by line: the headings
    of a sequence of pages are the headings of each page, one after the
    other in page order, and the headings of two sequences put together are
    those of the first followed by those of the second. *)
Theorem extract_headings_by_page (self : PDFOutlineExtractor)
    (pages1 pages2 : list (str * nat)) :
  extract_headings self pages1 = flat_map (headings_of_page self) pages1 /\
  extract_headings self (pages1 ++ pages2)
  = extract_headings self pages1 ++ extract_headings self pages2.
Proof.
  split; [apply extract_headings_flat|].
  rewrite !extract_headings_flat. apply flat_map_app.
Qed.

(** X15. A record is in the result of the heading pass exactly when it is
    the record of a line of one of the pages that the line classifier
    accepts: no accepted line is dropped and nothing else is added. *)
Theorem extract_headings_iff (self : PDFOutlineExtractor)
    (pages_text : list (str * nat)) (h : HeadingRecord) :
  In h (extract_headings self pages_text) <->
  exists text page_num line,
    In (text, page_num) pages_text /\ In line (split newline text) /\
    is_heading self (strip line) = true /\ h = heading_of page_num line.
Proof.
  rewrite extract_headings_flat, in_flat_map. unfold headings_of_page. split.
  - intros ([text n] & Hp & Hh). apply in_flat_map in Hh.
    destruct Hh as (line & Hl & Hh). simpl in Hl, Hh.
    destruct (is_heading self (strip line)) eqn:E; [|destruct Hh].
    destruct Hh as [<-|[]]. exists text, n, line. auto.
  - intros (text & n & line & Hp & Hl & Hh & ->). exists (text, n).
    split; [exact Hp|]. apply in_flat_map. exists line. simpl.
    split; [exact Hl|]. rewrite Hh. left. reflexivity.
Qed.

Lemma StronglySorted_le_app (l1 l2 : list nat) :
  StronglySorted le l1 -> StronglySorted le l2 ->
  (forall x y, In x l1 -> In y l2 -> x <= y) ->
  StronglySorted le (l1 ++ l2).
Proof.
  induction l1 as [|a l1 IH]; simpl; intros H1 H2 H; [exact H2|].
  inversion H1 as [|? ? Hs Ha]; subst. constructor.
  - apply IH; auto.
  - apply Forall_app. split; [exact Ha|].
    apply Forall_forall. intros y Hy. apply H; auto.
Qed.

Lemma constant_sorted (l : list nat) (n : nat) :
  (forall x, In x l -> x = n) -> StronglySorted le l.
Proof.
  induction l as [|a l IH]; intros H; constructor.
  - apply IH. intros x Hx. apply H. right. exact Hx.
  - apply Forall_forall. intros x Hx.
    rewrite (H a (or_introl eq_refl)), (H x (or_intror Hx)). constructor.
Qed.

Lemma headings_of_page_number (self : PDFOutlineExtractor) (p : str * nat)
    (h : HeadingRecord) :
  In h (headings_of_page self p) -> page h = snd p.
Proof.
  unfold headings_of_page. intros H. apply in_flat_map in H.
  destruct H as (line & _ & H).
  destruct (is_heading self (strip line)); [|destruct H].
  destruct H as [<-|[]]. reflexivity.
Qed.

Lemma headings_pages_sorted (self : PDFOutlineExtractor)
    (pages_text : list (str * nat)) :
  StronglySorted lt (map snd pages_text) ->
  StronglySorted le (map page (flat_map (headings_of_page self) pages_text)) /\
  forall h, In h (flat_map (headings_of_page self) pages_text) ->
            In (page h) (map snd pages_text).
Proof.
  induction pages_text as [|p rest IH]; simpl; intros Hs.
  - split; [constructor | intros h []].
  - inversion Hs as [|? ? Hrest Hp]; subst. destruct (IH Hrest) as [IHs IHin].
    split.
    + rewrite map_app. apply StronglySorted_le_app; [|exact IHs|].
      * apply constant_sorted with (snd p). intros x Hx.
        apply in_map_iff in Hx. destruct Hx as (hx & <- & Hx).
        apply headings_of_page_number with self. exact Hx.
      * intros x y Hx Hy. apply in_map_iff in Hx, Hy.
        destruct Hx as (hx & <- & Hx), Hy as (hy & <- & Hy).
        rewrite (headings_of_page_number _ _ _ Hx).
        apply IHin in Hy. rewrite Forall_forall in Hp.
        apply Nat.lt_le_incl, Hp, Hy.
    + intros h Hh. apply in_app_or in Hh. destruct Hh as [Hh|Hh].
      * left. symmetry. apply headings_of_page_number with self. exact Hh.
      * right. apply IHin, Hh.
Qed.

(* ================================================================== *)
(** * More on the outline builder *)

Lemma usable_pages_sorted (d : pdf) :
  StronglySorted lt (map snd (usable_pages d)) /\
  Forall (le 1) (map snd (usable_pages d)).
Proof.
  assert (G : forall pages, Forall (le 1) (map snd (number_pages 1 pages))).
  { intros pages. apply Forall_forall. intros n Hn. apply in_map_iff in Hn.
    destruct Hn as ([t n'] & <- & Hin). apply number_pages_In in Hin.
    simpl. lia. }
  unfold usable_pages, extract_text_pypdf2, extract_text_pdfminer.
  destruct (reader_pages d) as [pages|].
  - destruct (number_pages 1 pages) as [|p l] eqn:E.
    + destruct (miner_text d); simpl;
        split; try constructor; try apply number_pages_sorted; apply G.
    + rewrite <- E. split; [apply number_pages_sorted | apply G].
  - destruct (miner_text d); simpl;
      split; try constructor; try apply number_pages_sorted; apply G.
Qed.

(** X16. The headings of an outline are in reading order: their page
    numbers never decrease along the list, each is at least 1, and each is
    the number of a page that text was extracted from. *)
Theorem outline_in_reading_order (d : pdf) (self self' : PDFOutlineExtractor)
    (out : Outline) :
  extract_outline d self = (inr out, self') ->
  StronglySorted le (map page (outline out)) /\
  forall h, In h (outline out) ->
            1 <= page h /\ In (page h) (map snd (usable_pages d)).
Proof.
  intros H. destruct (usable_pages_cases d) as [E|E].
  - rewrite (extract_outline_fail d self E) in H. discriminate.
  - rewrite (extract_outline_ok d self E) in H. injection H as <- _. simpl.
    rewrite extract_headings_flat.
    destruct (usable_pages_sorted d) as [Hs H1].
    destruct (headings_pages_sorted
                {| _detected_title :=
                     Some match extract_title_from_metadata d with
                          | Some ((_ :: _) as t) => t
                          | _ => extract_title_from_content (usable_pages d)
                          end |} (usable_pages d) Hs) as [Hsorted Hin].
    split; [exact Hsorted|]. intros h Hh. apply Hin in Hh.
    split; [|exact Hh]. rewrite Forall_forall in H1. apply H1, Hh.
Qed.

Lemma outline_in_reading_order_witness :
  extract_outline sample_pdf init
    = (inr sample_outline, {| _detected_title := Some (title sample_outline) |}) /\
  map page (outline sample_outline) = [1; 1; 1; 3; 3] /\
  StronglySorted le (map page (outline sample_outline)).
Proof.
  assert (H : extract_outline sample_pdf init
              = (inr sample_outline,
                 {| _detected_title := Some (title sample_outline) |}))
    by (vm_compute; reflexivity).
  split; [exact H|]. split; [reflexivity|].
  exact (proj1 (outline_in_reading_order sample_pdf init _ sample_outline H)).
Defined.

(** X17. A run that returns an outline leaves its title in the extractor; a
    run that fails leaves the extractor as it found it. *)
Theorem extract_outline_state (d : pdf) (self : PDFOutlineExtractor) :
  snd (extract_outline d self)
  = match fst (extract_outline d self) with
    | inr out => {| _detected_title := Some (title out) |}
    | inl _ => self
    end.
Proof.
  destruct (usable_pages_cases d) as [E|E].
  - rewrite (extract_outline_fail d self E). reflexivity.
  - rewrite (extract_outline_ok d self E). reflexivity.
Qed.

(** X18. The fallback is read only when the primary extractor gives no
    page: when it gives one, the result is the same whatever pdfminer would
    have returned. *)
Theorem fallback_only_when_needed (d : pdf) (other : option str)
    (self : PDFOutlineExtractor) :
  extract_text_pypdf2 d <> [] ->
  extract_outline {| reader_pages := reader_pages d;
                     reader_title := reader_title d;
                     miner_text := other |} self
  = extract_outline d self.
Proof.
  intros H. unfold extract_outline, extract_title_from_metadata.
  unfold extract_text_pypdf2 in *. simpl.
  destruct (match reader_pages d with
            | Some pages => number_pages 1 pages
            | None => []
            end) as [|p l]; [contradiction | reflexivity].
Qed.

Lemma fallback_only_when_needed_witness :
  extract_text_pypdf2 sample_pdf <> [] /\
  extract_outline {| reader_pages := reader_pages sample_pdf;
                     reader_title := reader_title sample_pdf;
                     miner_text := Some (lit "SOMETHING ELSE") |} init
  = extract_outline sample_pdf init.
Proof.
  assert (H : extract_text_pypdf2 sample_pdf <> [])
    by (vm_compute; discriminate).
  split; [exact H | exact (fallback_only_when_needed sample_pdf _ init H)].
Defined.

(* ================================================================== *)
(** * The batch driver *)

Lemma extract_outline_any_state (d : pdf) (a b : PDFOutlineExtractor) :
  fst (extract_outline d a) = fst (extract_outline d b).
Proof.
  destruct (usable_pages_cases d) as [E|E].
  - rewrite !(extract_outline_fail d _ E). reflexivity.
  - rewrite !(extract_outline_ok d _ E). reflexivity.
Qed.

Lemma process_pdf_loop (pdf_files : list pdf_file) :
  forall extractor written success_count,
  exists extractor',
    fold_left process_pdf pdf_files (extractor, written, success_count)
    = (extractor',
       written ++ flat_map written_alone pdf_files,
       success_count + length (flat_map written_alone pdf_files)).
Proof.
  induction pdf_files as [|f rest IH]; intros extractor written n;
    cbn [fold_left flat_map].
  - exists extractor. simpl. rewrite app_nil_r, Nat.add_0_r. reflexivity.
  - assert (Hstep : process_pdf (extractor, written, n) f
                    = (snd (extract_outline (document f) extractor),
                       written ++ written_alone f,
                       n + length (written_alone f))).
    { unfold process_pdf, written_alone.
      rewrite (extract_outline_any_state (document f) init extractor).
      destruct (extract_outline (document f) extractor) as [[e|o] ext']; simpl.
      - rewrite app_nil_r, Nat.add_0_r. reflexivity.
      - rewrite Nat.add_1_r. reflexivity. }
    rewrite Hstep.
    destruct (IH (snd (extract_outline (document f) extractor))
                 (written ++ written_alone f)
                 (n + length (written_alone f))) as (ext' & ->).
    exists ext'. rewrite <- app_assoc, length_app, Nat.add_assoc. reflexivity.
Qed.

(** X19. The batch driver shares one extractor among its files, and still
    writes for each file what a fresh extractor would write for it alone, in
    the order of the files, skipping those without extractable text.  It
    exits with status 1 exactly when nothing was written: the directory is
    missing, holds no PDF, or no PDF had text. *)
Theorem main_batch (input_dir : option (list pdf_file)) :
  let pdf_files := match input_dir with Some fs => fs | None => [] end in
  snd (main input_dir) = flat_map written_alone pdf_files /\
  fst (main input_dir)
  = match flat_map written_alone pdf_files with [] => 1 | _ => 0 end.
Proof.
  destruct input_dir as [[|f rest]|]; simpl; auto.
  destruct (process_pdf_loop (f :: rest) init [] 0) as (ext & E).
  simpl fold_left in E. rewrite E. simpl.
  destruct (written_alone f ++ flat_map written_alone rest); simpl; auto.
Qed.

(** A scanned document: no text from either extractor, so no outline, and a
    batch of that one file writes nothing and fails. *)
Example scenario_no_text :
  extract_outline scanned_pdf init
    = (inl (ValueError (lit "Could not extract text from PDF")), init) /\
  main (Some [ {| stem := lit "scan"; document := scanned_pdf |} ]) = (1, []) /\
  main (Some [ {| stem := lit "scan"; document := scanned_pdf |};
               {| stem := lit "study"; document := sample_pdf |} ])
  = (0, [ (lit "study.json", sample_outline) ]).
Proof. repeat split; vm_compute; reflexivity. Qed.
